(** * EchoAgent: the session layer of [citadel_agent.py]

    A shallow embedding of the [EchoAgent] class (message history, lazy
    client initialisation, the request/response/error cycle around a
    completion call) and the properties of its four caller-facing
    operations.

    Python objects are mutable and exceptions leave earlier mutations in
    place, so every method is a computation in a state-and-exception monad
    [Py] over the agent object and the outside world (process environment,
    client handles constructed so far, completion requests sent so far). *)

From stdpp Require Import gmap strings list fin_maps.

Open Scope string_scope.
Open Scope list_scope.

(** ** Values and records *)

(** The two kinds of Python value that reach a [str]-annotated position in
    this program: [os.getenv] and [message.content] are both
    [Optional[str]]. *)
Inductive pyval : Type :=
| PNone
| PStr (s : string).

(** Python truthiness: [None] and the empty string are falsy. *)
Definition truthy (v : pyval) : bool :=
  match v with
  | PNone => false
  | PStr EmptyString => false
  | PStr (String _ _) => true
  end.

(** [class Message(BaseModel)]: both fields are plain [str]. *)
Record Message : Type := MkMessage { role : string; content : string }.

(** [class AzureAIConfig(BaseModel)]. *)
Record AzureAIConfig : Type := MkAzureAIConfig {
  api_key : string;
  api_base : string;
  api_version : string;
  deployment_name : string
}.

(** A client handle, identified by the keyword arguments its constructor
    received (lines 66-70). *)
Record AsyncAzureOpenAI : Type := MkAsyncAzureOpenAI {
  client_api_key : string;
  client_api_version : string;
  client_azure_endpoint : string
}.

(** [class EchoAgent(BaseModel)]: [messages] defaults to the empty list,
    [config] and [client] to [None]. *)
Record EchoAgent : Type := MkEchoAgent {
  messages : list Message;
  config : option AzureAIConfig;
  client : option AsyncAzureOpenAI
}.

Definition fresh_agent : EchoAgent :=
  {| messages := []; config := None; client := None |}.

(** ** Exceptions *)

(** The [Exception] subclasses this program can meet; each carries the
    text [str(e)] gives. *)
Inductive exn : Type :=
| ValueError (msg : string)
| AttributeError (msg : string)
| IndexError (msg : string)
| ValidationError (msg : string)
| OpenAIError (msg : string)
| APIError (msg : string).

Definition str (e : exn) : string :=
  match e with
  | ValueError m | AttributeError m | IndexError m
  | ValidationError m | OpenAIError m | APIError m => m
  end.

(** What attribute access on [None] raises. *)
Definition none_has_no (attribute : string) : exn :=
  AttributeError ("'NoneType' object has no attribute '" +:+ attribute +:+ "'").

(** ** The completion endpoint *)

(** The [messages=] argument of a completion request: either the list of
    [Message] model objects itself, or a list of plain dicts. *)
Inductive payload : Type :=
| MessageObjects (ms : list Message)
| RoleContentDicts (ds : list (gmap string string)).

Record Request : Type := MkRequest {
  req_client : AsyncAzureOpenAI;
  req_model : string;
  req_messages : payload
}.

(** [response.choices[i].message.content] is [Optional[str]]. *)
Record Choice : Type := MkChoice { message_content : pyval }.

Record ChatCompletion : Type := MkChatCompletion { choices : list Choice }.

(** A completion call either returns a response or raises. *)
Inductive reply : Type :=
| Responds (response : ChatCompletion)
| Fails (e : exn).

(** ** State *)

(** Everything outside the agent object that the methods read or affect. *)
Record World : Type := MkWorld {
  environ : gmap string string;
  constructed : list AsyncAzureOpenAI;
  calls : list Request
}.

Record State : Type := MkState { agent : EchoAgent; world : World }.

Inductive outcome (A : Type) : Type :=
| Returns (a : A)
| Raises (e : exn).
Arguments Returns {A} a.
Arguments Raises {A} e.

(** ** The monad of method bodies *)

Definition Py (A : Type) : Type := State → outcome A * State.

Definition ret {A} (a : A) : Py A := λ s, (Returns a, s).

Definition bind {A B} (m : Py A) (k : A → Py B) : Py B :=
  λ s, match m s with
       | (Returns a, s') => k a s'
       | (Raises e, s') => (Raises e, s')
       end.

Definition raise {A} (e : exn) : Py A := λ s, (Raises e, s).

(** [try: body / except Exception as e: handler]. Mutations made by the
    body before it raised stay in place. *)
Definition try_except {A} (body : Py A) (handler : exn → Py A) : Py A :=
  λ s, match body s with
       | (Returns a, s') => (Returns a, s')
       | (Raises e, s') => handler e s'
       end.

Declare Scope py_scope.
Delimit Scope py_scope with py.
Notation "x <- m ;; k" := (bind m (λ x, k))
  (at level 100, m at next level, right associativity,
   format "'[v' x  <-  m  ;; '/' k ']'") : py_scope.
Notation "m ;;; k" := (bind m (λ _, k))
  (at level 100, right associativity,
   format "'[v' m  ;;; '/' k ']'") : py_scope.
Open Scope py_scope.

(** Reading and writing the fields of [self]. *)
Definition self_messages : Py (list Message) := λ s, (Returns (messages (agent s)), s).
Definition self_config : Py (option AzureAIConfig) := λ s, (Returns (config (agent s)), s).
Definition self_client : Py (option AsyncAzureOpenAI) := λ s, (Returns (client (agent s)), s).

Definition set_config (c : AzureAIConfig) : Py unit :=
  λ s, (Returns tt,
        {| agent := {| messages := messages (agent s);
                       config := Some c;
                       client := client (agent s) |};
           world := world s |}).

Definition set_client (c : AsyncAzureOpenAI) : Py unit :=
  λ s, (Returns tt,
        {| agent := {| messages := messages (agent s);
                       config := config (agent s);
                       client := Some c |};
           world := world s |}).

(** [self.messages.append(m)]. *)
Definition messages_append (m : Message) : Py unit :=
  λ s, (Returns tt,
        {| agent := {| messages := messages (agent s) ++ [m];
                       config := config (agent s);
                       client := client (agent s) |};
           world := world s |}).

(** [os.getenv(name)]. *)
Definition getenv (name : string) : Py pyval :=
  λ s, (Returns (match environ (world s) !! name with
                 | Some v => PStr v
                 | None => PNone
                 end), s).

(** [o.attribute] where [o] is [Optional]. *)
Definition getattr {A B} (o : option A) (attribute : string) (get : A → B) : Py B :=
  match o with
  | Some a => ret (get a)
  | None => raise (none_has_no attribute)
  end.

(** [l[0]]. *)
Definition item0 {A} (l : list A) : Py A :=
  match l with
  | x :: _ => ret x
  | [] => raise (IndexError "list index out of range")
  end.

(** [sep.join(l)]. *)
Fixpoint join (sep : string) (l : list string) : string :=
  match l with
  | [] => ""
  | x :: xs =>
      match xs with
      | [] => x
      | _ :: _ => x +:+ sep +:+ join sep xs
      end
  end.

(** The dict built by both list comprehensions (lines 102 and 121). *)
Definition role_content (msg : Message) : gmap string string :=
  {[ "role" := role msg; "content" := content msg ]}.


Definition required_vars : list string :=
  [ "AZURE_OPENAI_API_KEY"; "AZURE_OPENAI_API_BASE";
    "AZURE_OPENAI_API_VERSION"; "AZURE_OPENAI_DEPLOYMENT_NAME" ].

Definition missing_message (missing_vars : list string) : string :=
  "Missing required environment variables: " +:+ join ", " missing_vars
  +:+ ". Please check your .env file.".

Definition error_prefix : string := "Error communicating with Azure OpenAI API: ".

(** The roles named in the description of [Message.role] (line 19). *)
Definition documented_roles : list string := [ "system"; "user"; "assistant" ].

Definition documented_role (r : string) : bool :=
  bool_decide (r ∈ documented_roles).

(** Reading a (role, content) pair back out of a history entry. *)
Definition entry_pair (d : gmap string string) : option (string * string) :=
  match d !! "role", d !! "content" with
  | Some r, Some c => Some (r, c)
  | _, _ => None
  end.

(** A variable is missing when [os.getenv] gives a falsy value for it
    (the test of lines 47-54): unset, or set to the empty string. *)
Definition missing (env : gmap string string) (name : string) : bool :=
  negb (truthy (match env !! name with
                | Some v => PStr v
                | None => PNone
                end)).

(** The state after request [q] went out. *)
Definition sent (q : Request) (s : State) : State :=
  {| agent := agent s;
     world := {| environ := environ (world s);
                 constructed := constructed (world s);
                 calls := calls (world s) ++ [q] |} |}.

(** ** Sample inputs *)

Definition sample_config : AzureAIConfig :=
  {| api_key := "k"; api_base := "https://e"; api_version := "v1";
     deployment_name := "gpt" |}.

Definition sample_client : AsyncAzureOpenAI :=
  {| client_api_key := "k"; client_api_version := "v1";
     client_azure_endpoint := "https://e" |}.

Definition full_environ : gmap string string :=
  {[ "AZURE_OPENAI_API_KEY" := "k";
     "AZURE_OPENAI_API_BASE" := "https://e";
     "AZURE_OPENAI_API_VERSION" := "v1";
     "AZURE_OPENAI_DEPLOYMENT_NAME" := "gpt" ]}.

(** The key is unset and the base address is set to the empty string. *)
Definition partial_environ : gmap string string :=
  {[ "AZURE_OPENAI_API_BASE" := "";
     "AZURE_OPENAI_API_VERSION" := "v1";
     "AZURE_OPENAI_DEPLOYMENT_NAME" := "gpt" ]}.

Definition world_of (env : gmap string string) : World :=
  {| environ := env; constructed := []; calls := [] |}.

(** A session that was never initialised, in an empty environment. *)
Definition fresh_state : State :=
  {| agent := fresh_agent; world := world_of ∅ |}.

(** A never-initialised session in a fully configured environment. *)
Definition configured_state : State :=
  {| agent := fresh_agent; world := world_of full_environ |}.

(** A never-initialised session in the partly configured environment. *)
Definition partial_state : State :=
  {| agent := fresh_agent; world := world_of partial_environ |}.

(** A session after a successful [initialize()] and a first system
    message, as [main] sets it up. *)
Definition ready_state : State :=
  {| agent := {| messages := [ {| role := "system"; content := "You are an Authorization Agent" |} ];
                 config := Some sample_config;
                 client := Some sample_client |};
     world := {| environ := full_environ; constructed := [sample_client];
                 calls := [] |} |}.

Definition always_replies (text : string) : list Request → Request → reply :=
  λ _ _, Responds {| choices := [ {| message_content := PStr text |} ] |}.

Definition always_fails (description : string) : list Request → Request → reply :=
  λ _ _, Fails (APIError description).

Definition sample_validation_text (model field : string) : string :=
  "1 validation error for " +:+ model +:+ ": " +:+ field.

Definition sample_credentials_text : string := "Missing credentials".

(** ** The demo entry point: helpers *)

(** The same session in another process environment. *)
Definition with_environ (env : gmap string string) (s : State) : State :=
  {| agent := agent s;
     world := {| environ := env;
                 constructed := constructed (world s);
                 calls := calls (world s) |} |}.

(** ASCII case mapping, enough for [str.capitalize] on the role names
    of this program. *)
Definition ascii_upper (a : Ascii.ascii) : Ascii.ascii :=
  let n := Ascii.nat_of_ascii a in
  if ((97 <=? n) && (n <=? 122))%nat then Ascii.ascii_of_nat (n - 32) else a.

Definition ascii_lower (a : Ascii.ascii) : Ascii.ascii :=
  let n := Ascii.nat_of_ascii a in
  if ((65 <=? n) && (n <=? 90))%nat then Ascii.ascii_of_nat (n + 32) else a.

Fixpoint string_map (f : Ascii.ascii → Ascii.ascii) (s : string) : string :=
  match s with
  | EmptyString => EmptyString
  | String a rest => String (f a) (string_map f rest)
  end.

(** [s.capitalize()]: first character upper case, the others lower case. *)
Definition capitalize (s : string) : string :=
  match s with
  | EmptyString => EmptyString
  | String a rest => String (ascii_upper a) (string_map ascii_lower rest)
  end.

(** The character written [\n] in the source. *)
Definition newline : Ascii.ascii := Ascii.ascii_of_nat 10.

(** [f"{v}"]. *)
Definition format_value (v : pyval) : string :=
  match v with
  | PStr s => s
  | PNone => "None"
  end.

(** What can end [main]: an exception of a method, or a failed dict
    lookup in the loop over the history. *)
Inductive main_error : Type :=
| Uncaught (e : exn)
| KeyError (key : string).

(** One run of [main]: how it ended, the texts passed to [print] in
    order, and the session it left. *)
Record Run : Type := MkRun {
  raised : option main_error;
  printed : list string;
  final : State
}.

(** The loop of lines 184-185, printing after [out]. *)
Fixpoint print_history (history : list (gmap string string)) (out : list string)
    (s : State) : Run :=
  match history with
  | [] => {| raised := None; printed := out; final := s |}
  | msg :: rest =>
      match msg !! "role" with
      | None => {| raised := Some (KeyError "role"); printed := out; final := s |}
      | Some r =>
          match msg !! "content" with
          | None => {| raised := Some (KeyError "content"); printed := out; final := s |}
          | Some c => print_history rest (out ++ [capitalize r +:+ ": " +:+ c]) s
          end
      end
  end.

(** ** More sample inputs *)

(** A configuration given explicitly, with an empty credential. *)
Definition unchecked_config : AzureAIConfig :=
  {| api_key := ""; api_base := "https://e"; api_version := "v1";
     deployment_name := "gpt" |}.

Definition unchecked_state : State :=
  {| agent := {| messages := []; config := Some unchecked_config; client := None |};
     world := world_of ∅ |}.

(** A session built with a client handle but no configuration. *)
Definition client_only_state : State :=
  {| agent := {| messages := []; config := None; client := Some sample_client |};
     world := world_of full_environ |}.

Definition replies_without_choice : list Request → Request → reply :=
  λ _ _, Responds {| choices := [] |}.

Definition replies_without_content : list Request → Request → reply :=
  λ _ _, Responds {| choices := [ {| message_content := PNone |} ] |}.

(** The first request fails, the later ones are answered. *)
Definition fails_once (description text : string) : list Request → Request → reply :=
  λ before _,
    match before with
    | [] => Fails (APIError description)
    | _ :: _ => Responds {| choices := [ {| message_content := PStr text |} ] |}
    end.

(** ** The methods of [EchoAgent] *)

Section EchoAgent.

(** The remote endpoint: what the completion call does, given the
    requests sent before it and the request itself. *)
Variable remote : list Request → Request → reply.

(** [str(e)] of pydantic's [ValidationError] for a [None] in a [str]
    field of the named model. *)
Variable validation_text : string → string → string.

(** [str(e)] of the [OpenAIError] the client constructor raises for an
    empty credential. *)
Variable credentials_text : string.

(** [Message(role=role, content=content)]: pydantic rejects a [None]
    content. *)
Definition new_Message (role : string) (content : pyval) : Py Message :=
  match content with
  | PStr c => ret {| role := role; content := c |}
  | PNone => raise (ValidationError (validation_text "Message" "content"))
  end.

(** [AzureAIConfig(api_key=..., ...)] on the results of [os.getenv]. *)
Definition new_AzureAIConfig (key base version deployment : pyval) : Py AzureAIConfig :=
  match key, base, version, deployment with
  | PStr k, PStr b, PStr v, PStr d =>
      ret {| api_key := k; api_base := b; api_version := v; deployment_name := d |}
  | PNone, _, _, _ => raise (ValidationError (validation_text "AzureAIConfig" "api_key"))
  | _, PNone, _, _ => raise (ValidationError (validation_text "AzureAIConfig" "api_base"))
  | _, _, PNone, _ => raise (ValidationError (validation_text "AzureAIConfig" "api_version"))
  | _, _, _, PNone => raise (ValidationError (validation_text "AzureAIConfig" "deployment_name"))
  end.

(** [AsyncAzureOpenAI(api_key=..., api_version=..., azure_endpoint=...)]
    (lines 66-70). The library refuses an empty credential with an
    [OpenAIError]; otherwise it returns the handle, which is recorded in
    the world. *)
Definition new_AsyncAzureOpenAI (key version endpoint : string) : Py AsyncAzureOpenAI :=
  match key with
  | EmptyString => raise (OpenAIError credentials_text)
  | String _ _ =>
      λ s, let c := {| client_api_key := key;
                       client_api_version := version;
                       client_azure_endpoint := endpoint |} in
           (Returns c,
            {| agent := agent s;
               world := {| environ := environ (world s);
                           constructed := constructed (world s) ++ [c];
                           calls := calls (world s) |} |})
  end.

(** [await client.chat.completions.create(model=..., messages=...)]:
    the request is sent (and logged), then the endpoint answers. *)
Definition completions_create (c : AsyncAzureOpenAI) (model : string)
    (msgs : payload) : Py ChatCompletion :=
  λ s, let request := {| req_client := c; req_model := model; req_messages := msgs |} in
       match remote (calls (world s)) request with
       | Responds response => (Returns response, sent request s)
       | Fails e => (Raises e, sent request s)
       end.

(** Lines 36-70. *)
Definition initialize : Py unit :=
  cfg <- self_config ;;
  (match cfg with
   | Some _ => ret tt
   | None =>
       api_key <- getenv "AZURE_OPENAI_API_KEY" ;;
       api_base <- getenv "AZURE_OPENAI_API_BASE" ;;
       api_version <- getenv "AZURE_OPENAI_API_VERSION" ;;
       deployment_name <- getenv "AZURE_OPENAI_DEPLOYMENT_NAME" ;;
       let missing_vars := [] in
       let missing_vars :=
         if truthy api_key then missing_vars
         else missing_vars ++ ["AZURE_OPENAI_API_KEY"] in
       let missing_vars :=
         if truthy api_base then missing_vars
         else missing_vars ++ ["AZURE_OPENAI_API_BASE"] in
       let missing_vars :=
         if truthy api_version then missing_vars
         else missing_vars ++ ["AZURE_OPENAI_API_VERSION"] in
       let missing_vars :=
         if truthy deployment_name then missing_vars
         else missing_vars ++ ["AZURE_OPENAI_DEPLOYMENT_NAME"] in
       match missing_vars with
       | _ :: _ => raise (ValueError (missing_message missing_vars))
       | [] =>
           c <- new_AzureAIConfig api_key api_base api_version deployment_name ;;
           set_config c
       end
   end) ;;;
  cfg <- self_config ;;
  key <- getattr cfg "api_key" api_key ;;
  version <- getattr cfg "api_version" api_version ;;
  endpoint <- getattr cfg "api_base" api_base ;;
  c <- new_AsyncAzureOpenAI key version endpoint ;;
  set_client c.

(** Lines 72-74. *)
Definition add_message (role : string) (content : pyval) : Py unit :=
  m <- new_Message role content ;;
  messages_append m.

(** The [except Exception as e] block shared by lines 89-92 and 114-117. *)
Definition report_error (e : exn) : Py pyval :=
  let error_message := error_prefix +:+ str e in
  add_message "system" (PStr error_message) ;;;
  ret (PStr error_message).

(** Lines 76-92. The callee [self.client.chat.completions.create] is
    evaluated before its arguments. *)
Definition echo_message (content : string) : Py pyval :=
  add_message "user" (PStr content) ;;;
  try_except
    (cl <- self_client ;;
     chat <- getattr cl "chat" id ;;
     cfg <- self_config ;;
     model <- getattr cfg "deployment_name" deployment_name ;;
     msgs <- self_messages ;;
     response <- completions_create chat model (MessageObjects msgs) ;;
     choice <- item0 (choices response) ;;
     let assistant_message := message_content choice in
     add_message "assistant" assistant_message ;;;
     ret assistant_message)
    report_error.

(** Lines 94-117. *)
Definition process_with_ai (content : string) : Py pyval :=
  cl <- self_client ;;
  (match cl with
   | None => initialize
   | Some _ => ret tt
   end) ;;;
  add_message "user" (PStr content) ;;;
  msgs <- self_messages ;;
  let formatted_messages := role_content <$> msgs in
  try_except
    (cl <- self_client ;;
     chat <- getattr cl "chat" id ;;
     cfg <- self_config ;;
     model <- getattr cfg "deployment_name" deployment_name ;;
     response <- completions_create chat model (RoleContentDicts formatted_messages) ;;
     choice <- item0 (choices response) ;;
     let assistant_message := message_content choice in
     add_message "assistant" assistant_message ;;;
     ret assistant_message)
    report_error.

(** Lines 119-121. *)
Definition get_chat_history : Py (list (gmap string string)) :=
  msgs <- self_messages ;;
  ret (role_content <$> msgs).

(** A run of [add_message] calls, stopping at the first that raises. *)
Fixpoint add_messages (entries : list (string * string)) : Py unit :=
  match entries with
  | [] => ret tt
  | (r, c) :: rest => add_message r (PStr c) ;;; add_messages rest
  end.

(** A run of [process_with_ai] calls; the caller goes on with the
    session whatever each call returned or raised. *)
Fixpoint process_all (texts : list string) (s : State) : State :=
  match texts with
  | [] => s
  | t :: rest => process_all rest (snd (process_with_ai t s))
  end.

(** The four caller-facing operations and [initialize], as one type. *)
Inductive operation : Type :=
| OpInitialize
| OpAddMessage (role : string) (content : string)
| OpEchoMessage (content : string)
| OpProcessWithAI (content : string)
| OpGetChatHistory.

(** The state an operation leaves behind, whether it returned or raised. *)
Definition run (op : operation) (s : State) : State :=
  match op with
  | OpInitialize => snd (initialize s)
  | OpAddMessage r c => snd (add_message r (PStr c) s)
  | OpEchoMessage c => snd (echo_message c s)
  | OpProcessWithAI c => snd (process_with_ai c s)
  | OpGetChatHistory => snd (get_chat_history s)
  end.


(** A run of operations of one session. *)
Fixpoint run_all (ops : list operation) (s : State) : State :=
  match ops with
  | [] => s
  | op :: rest => run_all rest (run op s)
  end.

(** The transcript of [s'] extends that of [s]: nothing was removed,
    reordered or changed. *)
Definition append_only (s s' : State) : Prop :=
  messages (agent s) `prefix_of` messages (agent s').

(** A computation under which the transcript only grows, whether it
    returns or raises. *)
Definition grows {A} (m : Py A) : Prop := ∀ s, append_only s (snd (m s)).

(** A run of [echo_message] calls on one session. *)
Fixpoint echo_all (texts : list string) (s : State) : State :=
  match texts with
  | [] => s
  | t :: rest => echo_all rest (snd (echo_message t s))
  end.

(** What a request/response cycle that returned leaves behind: the text
    [content] as user message, then one assistant or system message whose
    content is the returned text. *)
Definition exchanged (content : string) (s : State) (result : outcome pyval * State) : Prop :=
  ∃ (r last_role : string),
    fst result = Returns (PStr r)
    ∧ messages (agent (snd result)) =
        messages (agent s)
        ++ [ {| role := "user"; content := content |};
             {| role := last_role; content := r |} ]
    ∧ (last_role = "assistant" ∨ last_role = "system").

(** What no operation undoes: the environment is not written, the logs
    of handles and requests only grow, a configuration once set stays as
    it is, and a client once set stays set. *)
Definition settled (s s' : State) : Prop :=
  environ (world s') = environ (world s)
  ∧ constructed (world s) `prefix_of` constructed (world s')
  ∧ calls (world s) `prefix_of` calls (world s')
  ∧ (∀ cfg, config (agent s) = Some cfg → config (agent s') = Some cfg)
  ∧ (is_Some (client (agent s)) → is_Some (client (agent s'))).

(** Lines 124-185, with the literal of lines 129-169 as [system_prompt]
    and the line [input()] returns as [user_input]. *)
Definition main (system_prompt user_input : string) (w : World) : Run :=
  let s0 := {| agent := fresh_agent; world := w |} in
  match initialize s0 with
  | (Raises e, s1) => {| raised := Some (Uncaught e); printed := []; final := s1 |}
  | (Returns _, s1) =>
      match add_message "system" (PStr system_prompt) s1 with
      | (Raises e, s2) => {| raised := Some (Uncaught e); printed := []; final := s2 |}
      | (Returns _, s2) =>
          let out := [ "Enter your message: " ] in
          match echo_message user_input s2 with
          | (Raises e, s3) => {| raised := Some (Uncaught e); printed := out; final := s3 |}
          | (Returns echo_response, s3) =>
              let out := out ++ [ "User: " +:+ user_input ] in
              let out := out ++ [ "Agent: " +:+ format_value echo_response ] in
              let out := out ++ [ String newline "Chat History:" ] in
              match get_chat_history s3 with
              | (Raises e, s4) => {| raised := Some (Uncaught e); printed := out; final := s4 |}
              | (Returns history, s4) => print_history history out s4
              end
          end
      end
  end.

(** ** Step lemmas *)

Lemma bind_returns {A B} (m : Py A) (k : A → Py B) (s s' : State) (a : A) :
  m s = (Returns a, s') → bind m k s = k a s'.
Proof. intros Hm. unfold bind. now rewrite Hm. Qed.

Lemma bind_raises {A B} (m : Py A) (k : A → Py B) (s s' : State) (e : exn) :
  m s = (Raises e, s') → bind m k s = (Raises e, s').
Proof. intros Hm. unfold bind. now rewrite Hm. Qed.

(** [add_message] with a string content always returns, having put one
    message at the end. *)
Lemma add_message_str (r c : string) (s : State) :
  add_message r (PStr c) s =
  (Returns tt, snd (messages_append {| role := r; content := c |} s)).
Proof. reflexivity. Qed.

Lemma add_message_none (r : string) (s : State) :
  add_message r PNone s =
  (Raises (ValidationError (validation_text "Message" "content")), s).
Proof. reflexivity. Qed.

Lemma report_error_returns (e : exn) (s : State) :
  report_error e s =
  (Returns (PStr (error_prefix +:+ str e)),
   snd (messages_append {| role := "system"; content := error_prefix +:+ str e |} s)).
Proof. reflexivity. Qed.

Lemma add_messages_returns (entries : list (string * string)) (s : State) :
  fst (add_messages entries s) = Returns tt
  ∧ messages (agent (snd (add_messages entries s))) =
      messages (agent s) ++ ((λ e, {| role := e.1; content := e.2 |}) <$> entries).
Proof.
  revert s. induction entries as [|[r c] rest IH]; intros s.
  - simpl. now rewrite app_nil_r.
  - cbn [add_messages]. rewrite (bind_returns _ _ _ _ _ (add_message_str r c s)).
    destruct (IH (snd (messages_append {| role := r; content := c |} s))) as [Hret Hmsgs].
    split; [exact Hret|]. rewrite Hmsgs. simpl. now rewrite <- app_assoc.
Qed.

Lemma entry_pair_role_content (m : Message) :
  entry_pair (role_content m) = Some (role m, content m).
Proof. reflexivity. Qed.

(** ** The transcript *)

(** C1 (as amended). [add_message] does not validate the role: for every
    role outside system, user and assistant the call returns normally, the
    message (role, content) is put at the end of the transcript, and the
    length grows by one. Nothing else in the session changes. *)
Theorem add_message_accepts_any_role (r c : string) (s : State) :
  documented_role r = false →
  fst (add_message r (PStr c) s) = Returns tt
  ∧ messages (agent (snd (add_message r (PStr c) s))) =
      messages (agent s) ++ [ {| role := r; content := c |} ]
  ∧ length (messages (agent (snd (add_message r (PStr c) s)))) =
      S (length (messages (agent s))).
Proof.
  intros _. rewrite add_message_str. cbn [fst snd messages_append agent messages].
  repeat split. rewrite length_app. cbn [length]. lia.
Qed.

(** C6. After any run of [add_message] calls, [get_chat_history] returns
    one dict per message, in the order of the calls, after those already
    there; reading the role and the content back out of the dicts gives
    exactly the pairs that were appended. *)
Theorem get_chat_history_insertion_order (entries : list (string * string)) (s : State) :
  fst (add_messages entries s) = Returns tt
  ∧ ∃ history : list (gmap string string),
      fst (get_chat_history (snd (add_messages entries s))) = Returns history
      ∧ history =
          (role_content <$> messages (agent s))
          ++ ((λ e, {[ "role" := e.1; "content" := e.2 ]}) <$> entries)
      ∧ entry_pair <$> history =
          Some <$> (((λ m, (role m, content m)) <$> messages (agent s)) ++ entries).
Proof.
  destruct (add_messages_returns entries s) as [Hret Hmsgs].
  split; [exact Hret|].
  exists (role_content <$> messages (agent (snd (add_messages entries s)))).
  split; [reflexivity|]. rewrite Hmsgs. split.
  - rewrite fmap_app, <- list_fmap_compose. reflexivity.
  - rewrite <- list_fmap_compose, !fmap_app, <- !list_fmap_compose.
    f_equal. apply list_fmap_ext. now intros _ [r c] _.
Qed.

(** ** Initialisation *)

Ltac unfold_py :=
  unfold process_with_ai, echo_message, initialize, get_chat_history, report_error,
    add_message, new_Message, new_AzureAIConfig, completions_create,
    new_AsyncAzureOpenAI, set_client, set_config, messages_append, getattr,
    item0, getenv, self_client, self_config, self_messages, try_except, bind,
    ret, raise, sent in *.

Ltac reduce_fields :=
  cbn [agent world messages config client environ constructed calls fst snd] in *.

(** Turns the four environment lookups into arbitrary optional strings
    and splits on each being unset, empty or non-empty. *)
Ltac split_environment env :=
  unfold missing, required_vars in *; cbn [List.filter] in *;
  set (k := env !! "AZURE_OPENAI_API_KEY") in *; clearbody k;
  set (b := env !! "AZURE_OPENAI_API_BASE") in *; clearbody b;
  set (v := env !! "AZURE_OPENAI_API_VERSION") in *; clearbody v;
  set (d := env !! "AZURE_OPENAI_DEPLOYMENT_NAME") in *; clearbody d;
  destruct k as [[|? ?]|], b as [[|? ?]|], v as [[|? ?]|], d as [[|? ?]|].

Lemma initialize_raises_missing (s : State) :
  config (agent s) = None →
  List.filter (missing (environ (world s))) required_vars ≠ [] →
  initialize s =
  (Raises (ValueError (missing_message
     (List.filter (missing (environ (world s))) required_vars))), s).
Proof.
  destruct s as [[msgs cfg cl] [env made sent_before]]. reduce_fields.
  intros -> Hmissing. unfold_py. reduce_fields.
  split_environment env; solve [ reflexivity | now simpl in Hmissing ].
Qed.

Lemma initialize_from_environment (s : State) :
  config (agent s) = None →
  List.filter (missing (environ (world s))) required_vars = [] →
  ∃ (cfg : AzureAIConfig) (c : AsyncAzureOpenAI),
    initialize s =
    (Returns tt,
     {| agent := {| messages := messages (agent s);
                    config := Some cfg; client := Some c |};
        world := {| environ := environ (world s);
                    constructed := constructed (world s) ++ [c];
                    calls := calls (world s) |} |}).
Proof.
  destruct s as [[msgs cfg cl] [env made sent_before]]. reduce_fields.
  intros -> Hnone. unfold_py. reduce_fields.
  split_environment env; try (now simpl in Hnone).
  do 2 eexists. reflexivity.
Qed.

Lemma initialize_configured (s : State) (cfg : AzureAIConfig) :
  config (agent s) = Some cfg →
  api_key cfg ≠ "" →
  let c := {| client_api_key := api_key cfg;
              client_api_version := api_version cfg;
              client_azure_endpoint := api_base cfg |} in
  initialize s =
  (Returns tt,
   {| agent := {| messages := messages (agent s);
                  config := Some cfg; client := Some c |};
      world := {| environ := environ (world s);
                  constructed := constructed (world s) ++ [c];
                  calls := calls (world s) |} |}).
Proof.
  destruct s as [[msgs cfg' cl] [env made sent_before]]. reduce_fields.
  intros -> Hkey. destruct cfg as [[|a k] b v d]; [now cbn in Hkey|reflexivity].
Qed.

(** A stored configuration with an empty credential: the constructor's
    error leaves [initialize], and nothing has changed. *)
Lemma initialize_rejects_empty_credential (s : State) (cfg : AzureAIConfig) :
  config (agent s) = Some cfg →
  api_key cfg = "" →
  initialize s = (Raises (OpenAIError credentials_text), s).
Proof.
  destruct s as [[msgs cfg' cl] [env made sent_before]]. reduce_fields.
  intros -> Hkey. destruct cfg as [k b v d]. cbn in Hkey. subst k. reflexivity.
Qed.

(** [initialize] never touches the transcript nor the request log, and
    makes at most one handle. *)
Lemma initialize_frame (s : State) :
  messages (agent (snd (initialize s))) = messages (agent s)
  ∧ calls (world (snd (initialize s))) = calls (world s)
  ∧ environ (world (snd (initialize s))) = environ (world s).
Proof.
  destruct (config (agent s)) as [cfg|] eqn:Hcfg.
  - destruct (decide (api_key cfg = "")) as [Hkey|Hkey].
    + now rewrite (initialize_rejects_empty_credential s cfg Hcfg Hkey).
    + rewrite (initialize_configured s cfg Hcfg Hkey). now reduce_fields.
  - destruct (List.filter (missing (environ (world s))) required_vars) eqn:Hf.
    + destruct (initialize_from_environment s Hcfg Hf) as (cfg & c & ->).
      now reduce_fields.
    + rewrite initialize_raises_missing; [now reduce_fields|exact Hcfg|].
      rewrite Hf. discriminate.
Qed.

(** C2. With no explicit configuration and at least one of the four
    variables missing (unset or empty, the test the code applies),
    [initialize] raises an error whose text lists every missing variable
    and no other, in the order of the checks; the session and the world
    are left exactly as they were, so no client handle is made. *)
Theorem initialize_names_every_missing_variable (s : State) :
  config (agent s) = None →
  List.filter (missing (environ (world s))) required_vars ≠ [] →
  initialize s =
    (Raises (ValueError
       ("Missing required environment variables: "
        +:+ join ", " (List.filter (missing (environ (world s))) required_vars)
        +:+ ". Please check your .env file.")), s)
  ∧ (∀ name, name ∈ List.filter (missing (environ (world s))) required_vars ↔
       name ∈ required_vars ∧ missing (environ (world s)) name = true)
  ∧ client (agent (snd (initialize s))) = client (agent s)
  ∧ constructed (world (snd (initialize s))) = constructed (world s).
Proof.
  intros Hcfg Hmissing.
  rewrite (initialize_raises_missing s Hcfg Hmissing).
  split; [reflexivity|]. split; [|now reduce_fields].
  intros name. rewrite !list_elem_of_In. apply filter_In.
Qed.

(** C8. When [process_with_ai] has to initialise and a variable is
    missing, the error of [initialize] reaches the caller; the transcript,
    the request log and everything else are exactly as before the call. *)
Theorem process_with_ai_missing_configuration (content : string) (s : State) :
  client (agent s) = None →
  config (agent s) = None →
  List.filter (missing (environ (world s))) required_vars ≠ [] →
  process_with_ai content s =
    (Raises (ValueError (missing_message
       (List.filter (missing (environ (world s))) required_vars))), s)
  ∧ messages (agent (snd (process_with_ai content s))) = messages (agent s)
  ∧ calls (world (snd (process_with_ai content s))) = calls (world s).
Proof.
  intros Hcl Hcfg Hmissing.
  assert (process_with_ai content s =
    (Raises (ValueError (missing_message
       (List.filter (missing (environ (world s))) required_vars))), s)) as ->.
  { unfold process_with_ai.
    rewrite (bind_returns self_client _ s s (client (agent s))) by reflexivity.
    rewrite Hcl. apply bind_raises.
    now apply initialize_raises_missing. }
  now reduce_fields.
Qed.

(** ** The request/response cycle *)

(** C3. On an initialised session, when the completion call raises [e],
    neither entry point raises: each puts the user message then a system
    message holding the error text at the end of the transcript, and
    returns that text, which ends with [str e]. *)
Theorem remote_failure_is_reported (content : string) (s : State)
    (c : AsyncAzureOpenAI) (cfg : AzureAIConfig) (e : exn) :
  client (agent s) = Some c →
  config (agent s) = Some cfg →
  let transcript := messages (agent s) ++ [ {| role := "user"; content := content |} ] in
  let report := [ {| role := "system"; content := error_prefix +:+ str e |} ] in
  (remote (calls (world s))
     {| req_client := c; req_model := deployment_name cfg;
        req_messages := MessageObjects transcript |} = Fails e →
   fst (echo_message content s) = Returns (PStr (error_prefix +:+ str e))
   ∧ messages (agent (snd (echo_message content s))) = transcript ++ report)
  ∧ (remote (calls (world s))
       {| req_client := c; req_model := deployment_name cfg;
          req_messages := RoleContentDicts (role_content <$> transcript) |} = Fails e →
     fst (process_with_ai content s) = Returns (PStr (error_prefix +:+ str e))
     ∧ messages (agent (snd (process_with_ai content s))) = transcript ++ report).
Proof.
  destruct s as [[msgs cfg' cl] [env made sent_before]]. reduce_fields.
  intros -> ->. cbv zeta.
  split; intros Hremote; unfold_py; reduce_fields; unfold id;
    rewrite Hremote; now reduce_fields.
Qed.

(** C4. On an initialised session, when the completion call returns a
    response whose first choice carries the text [r], each entry point
    puts the user message then the assistant message [r] at the end of
    the transcript, and returns [r]. *)
Theorem successful_reply_is_recorded (content : string) (s : State)
    (c : AsyncAzureOpenAI) (cfg : AzureAIConfig) (r : string) (others : list Choice) :
  client (agent s) = Some c →
  config (agent s) = Some cfg →
  let transcript := messages (agent s) ++ [ {| role := "user"; content := content |} ] in
  let response := {| choices := {| message_content := PStr r |} :: others |} in
  let answer := [ {| role := "assistant"; content := r |} ] in
  (remote (calls (world s))
     {| req_client := c; req_model := deployment_name cfg;
        req_messages := MessageObjects transcript |} = Responds response →
   fst (echo_message content s) = Returns (PStr r)
   ∧ messages (agent (snd (echo_message content s))) = transcript ++ answer)
  ∧ (remote (calls (world s))
       {| req_client := c; req_model := deployment_name cfg;
          req_messages := RoleContentDicts (role_content <$> transcript) |} = Responds response →
     fst (process_with_ai content s) = Returns (PStr r)
     ∧ messages (agent (snd (process_with_ai content s))) = transcript ++ answer).
Proof.
  destruct s as [[msgs cfg' cl] [env made sent_before]]. reduce_fields.
  intros -> ->. cbv zeta.
  split; intros Hremote; unfold_py; reduce_fields; unfold id;
    rewrite Hremote; now reduce_fields.
Qed.

(** A response without a usable first reply is reported like a failed
    call: an empty list of choices raises [IndexError] at [choices[0]],
    and a [None] content is rejected when the assistant message is built. *)
Lemma malformed_response_is_reported (content : string) (s : State)
    (c : AsyncAzureOpenAI) (cfg : AzureAIConfig) (response : ChatCompletion) :
  client (agent s) = Some c →
  config (agent s) = Some cfg →
  head (choices response) = None
  ∨ message_content <$> head (choices response) = Some PNone →
  let transcript := messages (agent s) ++ [ {| role := "user"; content := content |} ] in
  remote (calls (world s))
    {| req_client := c; req_model := deployment_name cfg;
       req_messages := MessageObjects transcript |} = Responds response →
  ∃ description : string,
    fst (echo_message content s) = Returns (PStr (error_prefix +:+ description))
    ∧ messages (agent (snd (echo_message content s))) =
        transcript ++ [ {| role := "system"; content := error_prefix +:+ description |} ].
Proof.
  destruct s as [[msgs cfg' cl] [env made sent_before]]. reduce_fields.
  intros -> -> Hmalformed. cbv zeta. intros Hremote.
  unfold_py. reduce_fields. unfold id. rewrite Hremote.
  destruct response as [[|[[|r]] others]]; cbn in Hmalformed;
    try (destruct Hmalformed; discriminate);
    eexists; split; reflexivity.
Qed.


(** C10. [echo_message] on a session without a client does not raise
    and sends no request: looking up [chat] on [None] fails inside the
    [try] block, so the user message and a system message with that
    error are put in the transcript and the error text is returned. *)
Theorem echo_message_without_client (content : string) (s : State) :
  client (agent s) = None →
  let error_message :=
    error_prefix +:+ "'NoneType' object has no attribute 'chat'" in
  fst (echo_message content s) = Returns (PStr error_message)
  ∧ messages (agent (snd (echo_message content s))) =
      messages (agent s)
      ++ [ {| role := "user"; content := content |};
           {| role := "system"; content := error_message |} ]
  ∧ client (agent (snd (echo_message content s))) = None
  ∧ world (snd (echo_message content s)) = world s.
Proof.
  destruct s as [[msgs cfg cl] w]. reduce_fields.
  intros ->. cbv zeta.
  unfold_py. reduce_fields. rewrite <- app_assoc. now destruct w.
Qed.

(** ** The transcript only grows *)

Lemma append_only_refl (s : State) : append_only s s.
Proof. unfold append_only. reflexivity. Qed.

Lemma append_only_trans (s1 s2 s3 : State) :
  append_only s1 s2 → append_only s2 s3 → append_only s1 s3.
Proof. unfold append_only. intros H12 H23. now transitivity (messages (agent s2)). Qed.

Lemma append_only_same (s s' : State) :
  messages (agent s') = messages (agent s) → append_only s s'.
Proof. unfold append_only. now intros ->. Qed.

Lemma grows_ret {A} (a : A) : grows (ret a).
Proof. intros s. apply append_only_refl. Qed.

Lemma grows_raise {A} (e : exn) : grows (@raise A e).
Proof. intros s. apply append_only_refl. Qed.

Lemma grows_bind {A B} (m : Py A) (k : A → Py B) :
  grows m → (∀ a, grows (k a)) → grows (bind m k).
Proof.
  intros Hm Hk s. unfold bind. specialize (Hm s).
  destruct (m s) as [[a|e] s']; cbn [snd] in *; [|exact Hm].
  exact (append_only_trans _ _ _ Hm (Hk a s')).
Qed.

Lemma grows_try_except {A} (body : Py A) (handler : exn → Py A) :
  grows body → (∀ e, grows (handler e)) → grows (try_except body handler).
Proof.
  intros Hb Hh s. unfold try_except. specialize (Hb s).
  destruct (body s) as [[a|e] s']; cbn [snd] in *; [exact Hb|].
  exact (append_only_trans _ _ _ Hb (Hh e s')).
Qed.

Lemma grows_getattr {A B} (o : option A) (attribute : string) (get : A → B) :
  grows (getattr o attribute get).
Proof. destruct o; [apply grows_ret|apply grows_raise]. Qed.

Lemma grows_item0 {A} (l : list A) : grows (item0 l).
Proof. destruct l; [apply grows_raise|apply grows_ret]. Qed.

Lemma grows_add_message (r : string) (v : pyval) : grows (add_message r v).
Proof.
  intros s. destruct v as [|c].
  - rewrite add_message_none. apply append_only_refl.
  - rewrite add_message_str. now apply prefix_app_r.
Qed.

Lemma grows_completions_create (c : AsyncAzureOpenAI) (model : string) (p : payload) :
  grows (completions_create c model p).
Proof.
  intros s. unfold completions_create.
  destruct (remote _ _); now apply append_only_same.
Qed.

Lemma grows_initialize : grows initialize.
Proof. intros s. apply append_only_same, initialize_frame. Qed.

Lemma grows_report_error (e : exn) : grows (report_error e).
Proof.
  unfold report_error. apply grows_bind; [apply grows_add_message|].
  intros _. apply grows_ret.
Qed.

Lemma grows_self_client : grows self_client.
Proof. intros s. apply append_only_refl. Qed.

Lemma grows_self_config : grows self_config.
Proof. intros s. apply append_only_refl. Qed.

Lemma grows_self_messages : grows self_messages.
Proof. intros s. apply append_only_refl. Qed.

Create HintDb grows discriminated.
#[local] Hint Resolve grows_ret grows_raise grows_getattr grows_item0
  grows_add_message grows_completions_create grows_initialize
  grows_report_error grows_self_client grows_self_config
  grows_self_messages : grows.

Ltac grows_step :=
  first [ solve [ auto with grows ]
        | apply grows_bind; [|intros ?; cbv beta]
        | apply grows_try_except; [|intros ?; cbv beta] ].

Lemma grows_echo_message (content : string) : grows (echo_message content).
Proof. unfold echo_message. repeat grows_step. Qed.

Lemma grows_process_with_ai (content : string) : grows (process_with_ai content).
Proof.
  unfold process_with_ai. repeat grows_step.
  match goal with cl : option AsyncAzureOpenAI |- _ => destruct cl end;
    auto with grows.
Qed.

Lemma run_append_only (op : operation) (s : State) : append_only s (run op s).
Proof.
  destruct op; cbn [run].
  - apply grows_initialize.
  - apply grows_add_message.
  - apply grows_echo_message.
  - apply grows_process_with_ai.
  - now apply append_only_same.
Qed.

(** C9. Over any run of operations the old transcript is a prefix of the
    new one, so no message is removed, reordered or changed and the length
    never decreases; [add_message] puts exactly one message at the end. *)
Theorem operations_are_append_only (ops : list operation) (s : State) (r c : string) :
  messages (agent s) `prefix_of` messages (agent (run_all ops s))
  ∧ (length (messages (agent s)) ≤ length (messages (agent (run_all ops s))))%nat
  ∧ messages (agent (run (OpAddMessage r c) s)) =
      messages (agent s) ++ [ {| role := r; content := c |} ]
  ∧ length (messages (agent (run (OpAddMessage r c) s))) =
      S (length (messages (agent s))).
Proof.
  assert (append_only s (run_all ops s)) as Hprefix.
  { revert s. induction ops as [|op rest IH]; intros s; cbn [run_all].
    - apply append_only_refl.
    - exact (append_only_trans _ _ _ (run_append_only op s) (IH (run op s))). }
  split; [exact Hprefix|]. split; [now apply prefix_length|].
  cbn [run]. rewrite add_message_str. cbn [fst snd messages_append agent messages].
  split; [reflexivity|]. rewrite length_app. cbn [length]. lia.
Qed.

(** ** The client is made once *)

Lemma process_with_ai_keeps_client (content : string) (s : State) (c : AsyncAzureOpenAI) :
  client (agent s) = Some c →
  client (agent (snd (process_with_ai content s))) = Some c
  ∧ constructed (world (snd (process_with_ai content s))) = constructed (world s).
Proof.
  destruct s as [[msgs cfg cl] [env made sent_before]]. reduce_fields.
  intros ->. unfold_py. reduce_fields.
  repeat case_match; simplify_eq; now reduce_fields.
Qed.

Lemma process_all_keeps_client (texts : list string) (s : State) (c : AsyncAzureOpenAI) :
  client (agent s) = Some c →
  client (agent (process_all texts s)) = Some c
  ∧ constructed (world (process_all texts s)) = constructed (world s).
Proof.
  revert s. induction texts as [|t rest IH]; intros s Hc; cbn [process_all].
  - now split.
  - destruct (process_with_ai_keeps_client t s c Hc) as [Hc' Hmade].
    destruct (IH _ Hc') as [Hc'' Hmade'']. split; [exact Hc''|congruence].
Qed.

(** Once [initialize] has run, the call goes on as a call on a session
    that already has its client. *)
Lemma process_with_ai_after_initialize (content : string) (s s1 : State)
    (c : AsyncAzureOpenAI) :
  client (agent s) = None →
  initialize s = (Returns tt, s1) →
  client (agent s1) = Some c →
  process_with_ai content s = process_with_ai content s1.
Proof.
  intros Hnone Hinit Hc. unfold process_with_ai.
  rewrite (bind_returns self_client _ s s (client (agent s))) by reflexivity.
  rewrite (bind_returns self_client _ s1 s1 (client (agent s1))) by reflexivity.
  rewrite Hnone, Hc. rewrite (bind_returns initialize _ s s1 tt Hinit).
  reflexivity.
Qed.

Lemma initialize_makes_one_client (s : State) :
  (∃ cfg : AzureAIConfig, config (agent s) = Some cfg ∧ api_key cfg ≠ "")
  ∨ (config (agent s) = None
     ∧ List.filter (missing (environ (world s))) required_vars = []) →
  ∃ (s1 : State) (c : AsyncAzureOpenAI),
    initialize s = (Returns tt, s1)
    ∧ client (agent s1) = Some c
    ∧ constructed (world s1) = constructed (world s) ++ [c].
Proof.
  intros Havailable. destruct (config (agent s)) as [cfg|] eqn:Hcfg.
  - assert (api_key cfg ≠ "") as Hkey
      by (destruct Havailable as [(cfg' & Hsome & Hkey)|[Hnone _]]; congruence).
    do 2 eexists. split; [exact (initialize_configured s cfg Hcfg Hkey)|].
    now reduce_fields.
  - destruct Havailable as [(cfg & Hsome & _)|[_ Hnone]]; [discriminate|].
    destruct (initialize_from_environment s Hcfg Hnone) as (cfg & c & Hinit).
    do 2 eexists. split; [exact Hinit|]. now reduce_fields.
Qed.

(** C7 (as amended). On a session without a client whose configuration
    is available (given explicitly with a non-empty credential, or none
    given and all four variables present), the first [process_with_ai]
    call makes exactly one client handle; after it and after any number
    of further calls the session still holds that same handle and no
    other handle has been made. *)
Theorem process_with_ai_initializes_once (first : string) (later : list string)
    (s : State) :
  client (agent s) = None →
  (∃ cfg : AzureAIConfig, config (agent s) = Some cfg ∧ api_key cfg ≠ "")
  ∨ (config (agent s) = None
     ∧ List.filter (missing (environ (world s))) required_vars = []) →
  ∃ c : AsyncAzureOpenAI,
    client (agent (snd (process_with_ai first s))) = Some c
    ∧ constructed (world (snd (process_with_ai first s))) = constructed (world s) ++ [c]
    ∧ client (agent (process_all (first :: later) s)) = Some c
    ∧ constructed (world (process_all (first :: later) s)) = constructed (world s) ++ [c].
Proof.
  intros Hnone Havailable.
  destruct (initialize_makes_one_client s Havailable) as (s1 & c & Hinit & Hc & Hmade).
  exists c. cbn [process_all].
  rewrite (process_with_ai_after_initialize first s s1 c Hnone Hinit Hc).
  destruct (process_with_ai_keeps_client first s1 c Hc) as [Hc1 Hmade1].
  destruct (process_all_keeps_client later _ c Hc1) as [Hc2 Hmade2].
  repeat split; congruence.
Qed.

(** ** Initialisation, in full *)

(** What [initialize] does when every variable is present. *)
Lemma initialize_from_environment_exact (s : State) (k b v d : string) :
  config (agent s) = None →
  environ (world s) !! "AZURE_OPENAI_API_KEY" = Some k →
  environ (world s) !! "AZURE_OPENAI_API_BASE" = Some b →
  environ (world s) !! "AZURE_OPENAI_API_VERSION" = Some v →
  environ (world s) !! "AZURE_OPENAI_DEPLOYMENT_NAME" = Some d →
  List.filter (missing (environ (world s))) required_vars = [] →
  let c := {| client_api_key := k; client_api_version := v;
              client_azure_endpoint := b |} in
  initialize s =
  (Returns tt,
   {| agent := {| messages := messages (agent s);
                  config := Some {| api_key := k; api_base := b;
                                    api_version := v; deployment_name := d |};
                  client := Some c |};
      world := {| environ := environ (world s);
                  constructed := constructed (world s) ++ [c];
                  calls := calls (world s) |} |}).
Proof.
  destruct s as [[msgs cfg cl] [env made sent_before]]. reduce_fields.
  intros -> Hk Hb Hv Hd Hnone. cbv zeta.
  unfold_py. reduce_fields.
  unfold missing, required_vars in Hnone. cbn [List.filter] in Hnone.
  rewrite Hk, Hb, Hv, Hd in *.
  destruct k, b, v, d; now simpl in Hnone.
Qed.

(** What a returning [initialize] has done, whichever way the
    configuration came. *)
Lemma initialize_returns_inv (s s1 : State) :
  initialize s = (Returns tt, s1) →
  ∃ cfg : AzureAIConfig,
    (config (agent s) = Some cfg ∨ config (agent s) = None)
    ∧ api_key cfg ≠ ""
    ∧ s1 =
      {| agent := {| messages := messages (agent s);
                     config := Some cfg;
                     client := Some {| client_api_key := api_key cfg;
                                       client_api_version := api_version cfg;
                                       client_azure_endpoint := api_base cfg |} |};
         world := {| environ := environ (world s);
                     constructed := constructed (world s)
                       ++ [ {| client_api_key := api_key cfg;
                               client_api_version := api_version cfg;
                               client_azure_endpoint := api_base cfg |} ];
                     calls := calls (world s) |} |}.
Proof.
  intros Hinit. destruct (config (agent s)) as [cfg|] eqn:Hcfg.
  - exists cfg. split; [now left|].
    destruct (decide (api_key cfg = "")) as [Hkey|Hkey].
    + rewrite (initialize_rejects_empty_credential s cfg Hcfg Hkey) in Hinit.
      discriminate.
    + split; [exact Hkey|].
      rewrite (initialize_configured s cfg Hcfg Hkey) in Hinit. now simplify_eq.
  - destruct s as [[msgs cfg cl] [env made sent_before]]. reduce_fields. subst cfg.
    revert Hinit. unfold_py. reduce_fields.
    split_environment env; intros Hinit; cbn in Hinit; try discriminate Hinit.
    simplify_eq.
    eexists {| api_key := _; api_base := _; api_version := _; deployment_name := _ |}.
    split; [now right|]. split; [|reflexivity]. cbn. congruence.
Qed.

(** ** One request/response cycle, in every state *)

Lemma echo_message_shape (content : string) (s : State) :
  exchanged content s (echo_message content s)
  ∧ config (agent (snd (echo_message content s))) = config (agent s)
  ∧ client (agent (snd (echo_message content s))) = client (agent s)
  ∧ environ (world (snd (echo_message content s))) = environ (world s)
  ∧ constructed (world (snd (echo_message content s))) = constructed (world s)
  ∧ (calls (world (snd (echo_message content s))) = calls (world s)
     ∨ ∃ q, calls (world (snd (echo_message content s))) = calls (world s) ++ [q]).
Proof.
  destruct s as [[msgs cfg cl] [env made sent_before]].
  unfold exchanged. unfold_py. reduce_fields. unfold id.
  repeat case_match; simplify_eq; reduce_fields;
    (split; [do 2 eexists; split; [reflexivity|];
             split; [rewrite <- app_assoc; reflexivity|eauto]|]);
    repeat split; eauto.
Qed.

Lemma process_with_ai_ready_shape (content : string) (s : State) (c : AsyncAzureOpenAI) :
  client (agent s) = Some c →
  exchanged content s (process_with_ai content s)
  ∧ config (agent (snd (process_with_ai content s))) = config (agent s)
  ∧ client (agent (snd (process_with_ai content s))) = client (agent s)
  ∧ environ (world (snd (process_with_ai content s))) = environ (world s)
  ∧ constructed (world (snd (process_with_ai content s))) = constructed (world s)
  ∧ (calls (world (snd (process_with_ai content s))) = calls (world s)
     ∨ ∃ q, calls (world (snd (process_with_ai content s))) = calls (world s) ++ [q]).
Proof.
  destruct s as [[msgs cfg cl] [env made sent_before]]. reduce_fields. intros ->.
  unfold exchanged. unfold_py. reduce_fields. unfold id.
  repeat case_match; simplify_eq; reduce_fields;
    (split; [do 2 eexists; split; [reflexivity|];
             split; [rewrite <- app_assoc; reflexivity|eauto]|]);
    repeat split; eauto.
Qed.

(** On a session with client and configuration, [echo_message] sends
    exactly one request and keeps both. *)
Lemma echo_message_ready (content : string) (s : State) (c : AsyncAzureOpenAI)
    (cfg : AzureAIConfig) :
  client (agent s) = Some c →
  config (agent s) = Some cfg →
  client (agent (snd (echo_message content s))) = Some c
  ∧ config (agent (snd (echo_message content s))) = Some cfg
  ∧ calls (world (snd (echo_message content s))) =
      calls (world s)
      ++ [ {| req_client := c; req_model := deployment_name cfg;
              req_messages :=
                MessageObjects
                  (messages (agent s) ++ [ {| role := "user"; content := content |} ]) |} ].
Proof.
  destruct s as [[msgs cfg' cl] [env made sent_before]]. reduce_fields.
  intros -> ->. unfold_py. reduce_fields. unfold id.
  repeat case_match; simplify_eq; now reduce_fields.
Qed.

(** The same for both entry points. *)
Lemma cycle_ready (content : string) (s : State) (c : AsyncAzureOpenAI)
    (cfg : AzureAIConfig) :
  client (agent s) = Some c →
  config (agent s) = Some cfg →
  let transcript := messages (agent s) ++ [ {| role := "user"; content := content |} ] in
  (client (agent (snd (echo_message content s))) = Some c
   ∧ config (agent (snd (echo_message content s))) = Some cfg
   ∧ calls (world (snd (echo_message content s))) =
       calls (world s) ++ [ {| req_client := c; req_model := deployment_name cfg;
                               req_messages := MessageObjects transcript |} ])
  ∧ (client (agent (snd (process_with_ai content s))) = Some c
     ∧ config (agent (snd (process_with_ai content s))) = Some cfg
     ∧ calls (world (snd (process_with_ai content s))) =
         calls (world s) ++ [ {| req_client := c; req_model := deployment_name cfg;
                                 req_messages :=
                                   RoleContentDicts (role_content <$> transcript) |} ]).
Proof.
  destruct s as [[msgs cfg' cl] [env made sent_before]]. reduce_fields.
  intros -> ->. cbv zeta. unfold_py. reduce_fields. unfold id.
  split; repeat case_match; simplify_eq; now reduce_fields.
Qed.

(** ** Further properties of [initialize] *)

(** X1. A configuration given explicitly is used as it is: whatever the
    environment holds, [initialize] does not read it and checks nothing
    itself. With a non-empty credential it returns, keeps the
    configuration, and binds a new client made from its key, version and
    base address. With an empty credential the constructor's error leaves
    [initialize] (lines 66-70 are outside any [try]) and nothing has
    changed: no client is bound and no handle is made. *)
Theorem initialize_trusts_explicit_config (s : State) (cfg : AzureAIConfig)
    (env : gmap string string) :
  config (agent s) = Some cfg →
  let c := {| client_api_key := api_key cfg;
              client_api_version := api_version cfg;
              client_azure_endpoint := api_base cfg |} in
  initialize (with_environ env s) =
  match api_key cfg with
  | EmptyString => (Raises (OpenAIError credentials_text), with_environ env s)
  | String _ _ =>
      (Returns tt,
       {| agent := {| messages := messages (agent s);
                      config := Some cfg; client := Some c |};
          world := {| environ := env;
                      constructed := constructed (world s) ++ [c];
                      calls := calls (world s) |} |})
  end.
Proof.
  intros Hcfg. cbv zeta. destruct (api_key cfg) as [|a k] eqn:Hkey.
  - exact (initialize_rejects_empty_credential (with_environ env s) cfg Hcfg Hkey).
  - rewrite (initialize_configured (with_environ env s) cfg Hcfg);
      [now rewrite Hkey|]. now rewrite Hkey.
Qed.

(** X2. With no configuration and the four variables set to non-empty
    values, [initialize] stores exactly those values as the configuration
    and binds a client made from the key, the version and the base
    address; the deployment name is not given to the client. *)
Theorem initialize_reads_the_environment (s : State) (k b v d : string) :
  config (agent s) = None →
  environ (world s) !! "AZURE_OPENAI_API_KEY" = Some k →
  environ (world s) !! "AZURE_OPENAI_API_BASE" = Some b →
  environ (world s) !! "AZURE_OPENAI_API_VERSION" = Some v →
  environ (world s) !! "AZURE_OPENAI_DEPLOYMENT_NAME" = Some d →
  k ≠ "" → b ≠ "" → v ≠ "" → d ≠ "" →
  let c := {| client_api_key := k; client_api_version := v;
              client_azure_endpoint := b |} in
  initialize s =
  (Returns tt,
   {| agent := {| messages := messages (agent s);
                  config := Some {| api_key := k; api_base := b;
                                    api_version := v; deployment_name := d |};
                  client := Some c |};
      world := {| environ := environ (world s);
                  constructed := constructed (world s) ++ [c];
                  calls := calls (world s) |} |}).
Proof.
  intros Hcfg Hk Hb Hv Hd Hk' Hb' Hv' Hd'.
  apply initialize_from_environment_exact; try assumption.
  unfold missing, required_vars. cbn [List.filter]. rewrite Hk, Hb, Hv, Hd.
  destruct k, b, v, d; try congruence. reflexivity.
Qed.

(** X3. [initialize] never leaves a partial configuration behind: started
    without one, it either changes nothing in the agent, or stores a
    configuration whose four fields are the non-empty values of the four
    variables. *)
Theorem initialize_stores_all_or_nothing (s : State) :
  config (agent s) = None →
  agent (snd (initialize s)) = agent s
  ∨ ∃ cfg : AzureAIConfig,
      config (agent (snd (initialize s))) = Some cfg
      ∧ environ (world s) !! "AZURE_OPENAI_API_KEY" = Some (api_key cfg)
      ∧ environ (world s) !! "AZURE_OPENAI_API_BASE" = Some (api_base cfg)
      ∧ environ (world s) !! "AZURE_OPENAI_API_VERSION" = Some (api_version cfg)
      ∧ environ (world s) !! "AZURE_OPENAI_DEPLOYMENT_NAME" = Some (deployment_name cfg)
      ∧ api_key cfg ≠ "" ∧ api_base cfg ≠ ""
      ∧ api_version cfg ≠ "" ∧ deployment_name cfg ≠ "".
Proof.
  destruct s as [[msgs cfg cl] [env made sent_before]]. reduce_fields.
  intros ->. unfold_py. reduce_fields.
  set (k := env !! "AZURE_OPENAI_API_KEY").
  set (b := env !! "AZURE_OPENAI_API_BASE").
  set (v := env !! "AZURE_OPENAI_API_VERSION").
  set (d := env !! "AZURE_OPENAI_DEPLOYMENT_NAME").
  destruct k as [[|? ?]|], b as [[|? ?]|], v as [[|? ?]|], d as [[|? ?]|];
    try (left; reflexivity).
  right.
  eexists {| api_key := _; api_base := _; api_version := _; deployment_name := _ |}.
  cbn. repeat split; congruence.
Qed.

(** X4. [initialize] has no guard of its own: called again after it
    returned, in whatever environment, it returns again, leaves the agent
    as it is, and makes one more client handle, equal to the one the
    session holds. *)
Theorem initialize_again_makes_another_client (s s1 : State)
    (env : gmap string string) :
  initialize s = (Returns tt, s1) →
  ∃ c : AsyncAzureOpenAI,
    client (agent s1) = Some c
    ∧ initialize (with_environ env s1) =
      (Returns tt,
       {| agent := agent s1;
          world := {| environ := env;
                      constructed := constructed (world s1) ++ [c];
                      calls := calls (world s1) |} |}).
Proof.
  intros Hinit. destruct (initialize_returns_inv s s1 Hinit) as (cfg & _ & Hkey & Hs1).
  assert (config (agent (with_environ env s1)) = Some cfg) as Hcfg
    by (subst s1; reflexivity).
  rewrite (initialize_configured (with_environ env s1) cfg Hcfg Hkey).
  subst s1. eexists. split; reflexivity.
Qed.

(** ** Further properties of the request/response cycle *)

(** X5. [echo_message] returns in every state and for every behaviour of
    the endpoint: it never raises, the transcript gains the user message
    and then one assistant or system message, the returned text is the
    content of that last message, at most one request goes out, and the
    configuration, the client and the list of handles are untouched. *)
Theorem echo_message_always_returns (content : string) (s : State) :
  ∃ (r last_role : string),
    fst (echo_message content s) = Returns (PStr r)
    ∧ messages (agent (snd (echo_message content s))) =
        messages (agent s)
        ++ [ {| role := "user"; content := content |};
             {| role := last_role; content := r |} ]
    ∧ (last_role = "assistant" ∨ last_role = "system")
    ∧ config (agent (snd (echo_message content s))) = config (agent s)
    ∧ client (agent (snd (echo_message content s))) = client (agent s)
    ∧ constructed (world (snd (echo_message content s))) = constructed (world s)
    ∧ (calls (world (snd (echo_message content s))) = calls (world s)
       ∨ ∃ q, calls (world (snd (echo_message content s))) = calls (world s) ++ [q]).
Proof.
  destruct (echo_message_shape content s)
    as ((r & last_role & Hret & Hmsgs & Hrole) & Hcfg & Hcl & _ & Hmade & Hcalls).
  exists r, last_role. repeat split; assumption.
Qed.

(** X6. [process_with_ai] has three outcomes only. It returns, with the
    user message and one assistant or system message added and the
    returned text equal to the content of the latter. Or the session had
    neither client nor configuration, a variable is missing, and the call
    raises the error of [initialize]. Or the session had no client and a
    configuration with an empty credential, and the call raises the error
    of the client constructor. In both raising cases nothing has changed. *)
Theorem process_with_ai_returns_or_stops_at_configuration (content : string)
    (s : State) :
  (∃ (r last_role : string),
     fst (process_with_ai content s) = Returns (PStr r)
     ∧ messages (agent (snd (process_with_ai content s))) =
         messages (agent s)
         ++ [ {| role := "user"; content := content |};
              {| role := last_role; content := r |} ]
     ∧ (last_role = "assistant" ∨ last_role = "system"))
  ∨ (client (agent s) = None
     ∧ config (agent s) = None
     ∧ List.filter (missing (environ (world s))) required_vars ≠ []
     ∧ process_with_ai content s =
         (Raises (ValueError (missing_message
            (List.filter (missing (environ (world s))) required_vars))), s))
  ∨ (∃ cfg : AzureAIConfig,
       client (agent s) = None
       ∧ config (agent s) = Some cfg
       ∧ api_key cfg = ""
       ∧ process_with_ai content s = (Raises (OpenAIError credentials_text), s)).
Proof.
  destruct (client (agent s)) as [c|] eqn:Hcl.
  { left. exact (proj1 (process_with_ai_ready_shape content s c Hcl)). }
  assert (∀ e, initialize s = (Raises e, s) →
               process_with_ai content s = (Raises e, s)) as Hstops.
  { intros e Hinit. unfold process_with_ai.
    rewrite (bind_returns self_client _ s s (client (agent s))) by reflexivity.
    rewrite Hcl. now apply bind_raises. }
  assert ((∃ cfg : AzureAIConfig, config (agent s) = Some cfg ∧ api_key cfg ≠ "")
          ∨ (config (agent s) = None
             ∧ List.filter (missing (environ (world s))) required_vars = []) →
          ∃ (r last_role : string),
            fst (process_with_ai content s) = Returns (PStr r)
            ∧ messages (agent (snd (process_with_ai content s))) =
                messages (agent s)
                ++ [ {| role := "user"; content := content |};
                     {| role := last_role; content := r |} ]
            ∧ (last_role = "assistant" ∨ last_role = "system")) as Hgoes.
  { intros Havailable.
    destruct (initialize_makes_one_client s Havailable) as (s1 & c & Hinit & Hc & _).
    rewrite (process_with_ai_after_initialize content s s1 c Hcl Hinit Hc).
    destruct (proj1 (process_with_ai_ready_shape content s1 c Hc))
      as (r & last_role & Hret & Hmsgs & Hrole).
    exists r, last_role. split; [exact Hret|]. split; [|exact Hrole].
    rewrite Hmsgs. destruct (initialize_frame s) as [Hsame _].
    rewrite Hinit in Hsame. cbn [snd] in Hsame. now rewrite Hsame. }
  destruct (config (agent s)) as [cfg|] eqn:Hcfg.
  - destruct (decide (api_key cfg = "")) as [Hkey|Hkey].
    + right. right. exists cfg. repeat split; try assumption.
      apply Hstops. now apply (initialize_rejects_empty_credential s cfg).
    + left. apply Hgoes. left. now exists cfg.
  - destruct (List.filter (missing (environ (world s))) required_vars) eqn:Hf.
    + left. apply Hgoes. now right.
    + right. left. rewrite <- Hf.
      assert (List.filter (missing (environ (world s))) required_vars ≠ [])
        as Hmissing by (rewrite Hf; discriminate).
      repeat split; try assumption.
      apply Hstops. now apply initialize_raises_missing.
Qed.

(** X7. A session that holds a client but no configuration cannot send a
    request: both entry points fail on [self.config.deployment_name]
    inside the [try] block, report that as a system message and return
    it; [process_with_ai] does not initialise, since a client is there. *)
Theorem client_without_config_is_reported (content : string) (s : State)
    (c : AsyncAzureOpenAI) :
  client (agent s) = Some c →
  config (agent s) = None →
  let error_message :=
    error_prefix +:+ "'NoneType' object has no attribute 'deployment_name'" in
  let transcript :=
    messages (agent s)
    ++ [ {| role := "user"; content := content |};
         {| role := "system"; content := error_message |} ] in
  echo_message content s =
    (Returns (PStr error_message),
     {| agent := {| messages := transcript; config := None; client := Some c |};
        world := world s |})
  ∧ process_with_ai content s =
      (Returns (PStr error_message),
       {| agent := {| messages := transcript; config := None; client := Some c |};
          world := world s |}).
Proof.
  destruct s as [[msgs cfg cl] w]. reduce_fields. intros -> ->. cbv zeta.
  unfold_py. reduce_fields. rewrite <- !app_assoc. now destruct w.
Qed.

(** X8. [echo_message] reports a response that carries no usable text
    like a failed call, after the request went out: with no choice at all the error
    text is that of the failed index lookup, and with a [None] content it
    is the text of the validation error raised when the assistant message
    is built. Nothing is recorded as an assistant message. *)
Theorem unusable_response_is_reported (content : string) (s : State)
    (c : AsyncAzureOpenAI) (cfg : AzureAIConfig) (others : list Choice) :
  client (agent s) = Some c →
  config (agent s) = Some cfg →
  let transcript := messages (agent s) ++ [ {| role := "user"; content := content |} ] in
  let request := {| req_client := c; req_model := deployment_name cfg;
                    req_messages := MessageObjects transcript |} in
  let no_choice := error_prefix +:+ "list index out of range" in
  let no_content := error_prefix +:+ validation_text "Message" "content" in
  (remote (calls (world s)) request = Responds {| choices := [] |} →
   fst (echo_message content s) = Returns (PStr no_choice)
   ∧ messages (agent (snd (echo_message content s))) =
       transcript ++ [ {| role := "system"; content := no_choice |} ]
   ∧ calls (world (snd (echo_message content s))) = calls (world s) ++ [request])
  ∧ (remote (calls (world s)) request =
       Responds {| choices := {| message_content := PNone |} :: others |} →
     fst (echo_message content s) = Returns (PStr no_content)
     ∧ messages (agent (snd (echo_message content s))) =
         transcript ++ [ {| role := "system"; content := no_content |} ]
     ∧ calls (world (snd (echo_message content s))) = calls (world s) ++ [request]).
Proof.
  destruct s as [[msgs cfg' cl] [env made sent_before]]. reduce_fields.
  intros -> ->. cbv zeta.
  split; intros Hremote; unfold_py; reduce_fields; unfold id;
    rewrite Hremote; now reduce_fields.
Qed.

(** ** Sessions of several calls *)

(** X9. An error notice stays in the conversation: when the first of two
    [echo_message] calls fails, the request of the second call carries
    the first user message, the system message reporting the failure and
    the second user message, in that order, after the earlier transcript. *)
Theorem error_notice_is_sent_with_the_next_request (first second : string)
    (s : State) (c : AsyncAzureOpenAI) (cfg : AzureAIConfig) (e : exn) :
  client (agent s) = Some c →
  config (agent s) = Some cfg →
  let asked := messages (agent s) ++ [ {| role := "user"; content := first |} ] in
  let request := {| req_client := c; req_model := deployment_name cfg;
                    req_messages := MessageObjects asked |} in
  remote (calls (world s)) request = Fails e →
  calls (world (echo_all [first; second] s)) =
    calls (world s)
    ++ [ request;
         {| req_client := c; req_model := deployment_name cfg;
            req_messages :=
              MessageObjects
                (asked
                 ++ [ {| role := "system"; content := error_prefix +:+ str e |};
                      {| role := "user"; content := second |} ]) |} ].
Proof.
  destruct s as [[msgs cfg' cl] [env made sent_before]]. reduce_fields.
  intros -> ->. cbv zeta. intros Hremote. cbn [echo_all].
  assert (snd (echo_message first
                 {| agent := {| messages := msgs; config := Some cfg; client := Some c |};
                    world := {| environ := env; constructed := made;
                                calls := sent_before |} |}) =
          {| agent := {| messages :=
                           (msgs ++ [ {| role := "user"; content := first |} ])
                           ++ [ {| role := "system"; content := error_prefix +:+ str e |} ];
                         config := Some cfg; client := Some c |};
             world := {| environ := env; constructed := made;
                         calls := sent_before
                           ++ [ {| req_client := c; req_model := deployment_name cfg;
                                   req_messages := MessageObjects
                                     (msgs ++ [ {| role := "user"; content := first |} ]) |} ]
                      |} |}) as ->.
  { unfold_py. reduce_fields. unfold id. rewrite Hremote. now reduce_fields. }
  match goal with
  | |- context [echo_message second ?s1] =>
      destruct (echo_message_ready second s1 c cfg eq_refl eq_refl) as (_ & _ & Hcalls)
  end.
  rewrite Hcalls. reduce_fields. now rewrite <- !app_assoc.
Qed.

Lemma exchanged_length (content : string) (s : State) (result : outcome pyval * State) :
  exchanged content s result →
  length (messages (agent (snd result))) = length (messages (agent s)) + 2.
Proof.
  intros (r & last_role & _ & Hmsgs & _). rewrite Hmsgs, length_app. reflexivity.
Qed.

(** X10. On a session with client and configuration, every call of
    either entry point adds exactly two messages and sends exactly one
    request, whatever the endpoint answers: after n calls the transcript
    is 2n longer and the request log n longer, and no handle was made. *)
Theorem every_call_adds_two_messages_and_one_request (texts : list string)
    (s : State) (c : AsyncAzureOpenAI) (cfg : AzureAIConfig) :
  client (agent s) = Some c →
  config (agent s) = Some cfg →
  (length (messages (agent (echo_all texts s))) =
     length (messages (agent s)) + 2 * length texts
   ∧ length (calls (world (echo_all texts s))) =
       length (calls (world s)) + length texts
   ∧ constructed (world (echo_all texts s)) = constructed (world s))
  ∧ (length (messages (agent (process_all texts s))) =
       length (messages (agent s)) + 2 * length texts
     ∧ length (calls (world (process_all texts s))) =
         length (calls (world s)) + length texts
     ∧ constructed (world (process_all texts s)) = constructed (world s)).
Proof.
  revert s. induction texts as [|t rest IH]; intros s Hcl Hcfg.
  - cbn [echo_all process_all length]. repeat split; lia.
  - cbn [echo_all process_all length].
    destruct (cycle_ready t s c cfg Hcl Hcfg)
      as [(Hcl1 & Hcfg1 & Hcalls1) (Hcl2 & Hcfg2 & Hcalls2)].
    destruct (echo_message_shape t s) as (Hex1 & _ & _ & _ & Hmade1 & _).
    destruct (process_with_ai_ready_shape t s c Hcl) as (Hex2 & _ & _ & _ & Hmade2 & _).
    apply exchanged_length in Hex1, Hex2.
    destruct (IH _ Hcl1 Hcfg1) as [(Hm & Hc & Hh) _].
    destruct (IH _ Hcl2 Hcfg2) as [_ (Hm' & Hc' & Hh')].
    rewrite Hm, Hc, Hh, Hm', Hc', Hh', Hex1, Hex2, Hcalls1, Hcalls2, Hmade1, Hmade2.
    rewrite !length_app. cbn [length]. repeat split; lia.
Qed.

(** ** What no operation undoes *)

Lemma settled_refl (s : State) : settled s s.
Proof. unfold settled. repeat split; auto. Qed.

Lemma settled_trans (s1 s2 s3 : State) :
  settled s1 s2 → settled s2 s3 → settled s1 s3.
Proof.
  intros (He & Hm & Hc & Hcfg & Hcl) (He' & Hm' & Hc' & Hcfg' & Hcl').
  unfold settled. repeat split.
  - congruence.
  - now transitivity (constructed (world s2)).
  - now transitivity (calls (world s2)).
  - auto.
  - auto.
Qed.

Lemma settled_initialize (s : State) : settled s (snd (initialize s)).
Proof.
  destruct (initialize s) as [[[]|e] s1] eqn:Hinit; cbn [snd].
  - destruct (initialize_returns_inv s s1 Hinit) as (cfg & Hwas & _ & ->).
    unfold settled. reduce_fields.
    split; [reflexivity|]. split; [now apply prefix_app_r|].
    split; [reflexivity|]. split; [|eauto].
    intros cfg' Hcfg'. destruct Hwas; congruence.
  - destruct (config (agent s)) as [cfg|] eqn:Hcfg.
    + destruct (decide (api_key cfg = "")) as [Hkey|Hkey].
      * rewrite (initialize_rejects_empty_credential s cfg Hcfg Hkey) in Hinit.
        simplify_eq. apply settled_refl.
      * rewrite (initialize_configured s cfg Hcfg Hkey) in Hinit. discriminate.
    + destruct (List.filter (missing (environ (world s))) required_vars) eqn:Hf.
      * destruct (initialize_from_environment s Hcfg Hf) as (? & ? & Hret).
        rewrite Hret in Hinit. discriminate.
      * rewrite initialize_raises_missing in Hinit;
          [|exact Hcfg|rewrite Hf; discriminate].
        simplify_eq. apply settled_refl.
Qed.

Lemma settled_of_shape (s s' : State) :
  config (agent s') = config (agent s) →
  client (agent s') = client (agent s) →
  environ (world s') = environ (world s) →
  constructed (world s') = constructed (world s) →
  (calls (world s') = calls (world s) ∨ ∃ q, calls (world s') = calls (world s) ++ [q]) →
  settled s s'.
Proof.
  intros Hcfg Hcl Henv Hmade Hcalls. unfold settled.
  rewrite Hcfg, Hcl, Henv, Hmade. repeat split; auto.
  destruct Hcalls as [->|[q ->]]; [reflexivity|now apply prefix_app_r].
Qed.

Lemma settled_run (op : operation) (s : State) : settled s (run op s).
Proof.
  destruct op as [|r c|t|t|]; cbn [run].
  - apply settled_initialize.
  - rewrite add_message_str. apply settled_of_shape; auto.
  - destruct (echo_message_shape t s) as (_ & ? & ? & ? & ? & ?).
    now apply settled_of_shape.
  - destruct (client (agent s)) as [c|] eqn:Hcl.
    + destruct (process_with_ai_ready_shape t s c Hcl) as (_ & ? & ? & ? & ? & ?).
      now apply settled_of_shape.
    + pose proof (settled_initialize s) as Hinit.
      destruct (initialize s) as [[[]|e] s1] eqn:Hrun; cbn [snd] in Hinit.
      * destruct (initialize_returns_inv s s1 Hrun) as (cfg & _ & _ & Hs1).
        assert (client (agent s1) = Some {| client_api_key := api_key cfg;
                                            client_api_version := api_version cfg;
                                            client_azure_endpoint := api_base cfg |})
          as Hc by (subst s1; reflexivity).
        rewrite (process_with_ai_after_initialize t s s1 _ Hcl Hrun Hc).
        apply (settled_trans _ s1); [exact Hinit|].
        destruct (process_with_ai_ready_shape t s1 _ Hc) as (_ & ? & ? & ? & ? & ?).
        now apply settled_of_shape.
      * assert (process_with_ai t s = (Raises e, s1)) as ->.
        { unfold process_with_ai.
          rewrite (bind_returns self_client _ s s (client (agent s))) by reflexivity.
          rewrite Hcl. now apply bind_raises. }
        exact Hinit.
  - apply settled_refl.
Qed.

(** X11. Over any run of operations the environment is never written,
    the lists of handles made and of requests sent only grow, a
    configuration once set is never replaced, and a client once set is
    never taken away. *)
Theorem nothing_is_undone (ops : list operation) (s : State) :
  settled s (run_all ops s).
Proof.
  revert s. induction ops as [|op rest IH]; intros s; cbn [run_all].
  - apply settled_refl.
  - exact (settled_trans _ _ _ (settled_run op s) (IH (run op s))).
Qed.

(** X12. The lazy path end to end: on a session with neither client nor
    configuration, in an environment holding the four values,
    [process_with_ai] initialises from them and then asks the endpoint
    through the new client, naming the deployment variable as the model
    and sending the transcript as role/content dicts; a text reply is
    recorded and returned. *)
Theorem first_call_initializes_then_asks (content : string) (s : State)
    (k b v d r : string) (others : list Choice) :
  client (agent s) = None →
  config (agent s) = None →
  environ (world s) !! "AZURE_OPENAI_API_KEY" = Some k →
  environ (world s) !! "AZURE_OPENAI_API_BASE" = Some b →
  environ (world s) !! "AZURE_OPENAI_API_VERSION" = Some v →
  environ (world s) !! "AZURE_OPENAI_DEPLOYMENT_NAME" = Some d →
  List.filter (missing (environ (world s))) required_vars = [] →
  let c := {| client_api_key := k; client_api_version := v;
              client_azure_endpoint := b |} in
  let asked := messages (agent s) ++ [ {| role := "user"; content := content |} ] in
  let request := {| req_client := c; req_model := d;
                    req_messages := RoleContentDicts (role_content <$> asked) |} in
  remote (calls (world s)) request =
    Responds {| choices := {| message_content := PStr r |} :: others |} →
  process_with_ai content s =
  (Returns (PStr r),
   {| agent := {| messages := asked ++ [ {| role := "assistant"; content := r |} ];
                  config := Some {| api_key := k; api_base := b;
                                    api_version := v; deployment_name := d |};
                  client := Some c |};
      world := {| environ := environ (world s);
                  constructed := constructed (world s) ++ [c];
                  calls := calls (world s) ++ [request] |} |}).
Proof.
  intros Hcl Hcfg Hk Hb Hv Hd Hnone. cbv zeta. intros Hremote.
  pose proof (initialize_from_environment_exact s k b v d Hcfg Hk Hb Hv Hd Hnone)
    as Hinit. cbv zeta in Hinit.
  rewrite (process_with_ai_after_initialize content s _ _ Hcl Hinit eq_refl).
  clear Hinit. destruct s as [[msgs cfg cl] [env made sent_before]].
  reduce_fields. unfold_py. reduce_fields. unfold id. cbn [deployment_name].
  rewrite Hremote. now reduce_fields.
Qed.

(** ** The demo entry point *)

(** The loop over the history of a transcript finds both keys in every
    entry and prints one line per message. *)
Lemma print_history_of_transcript (msgs : list Message) (out : list string) (s : State) :
  print_history (role_content <$> msgs) out s =
  {| raised := None;
     printed := out ++ ((λ m, capitalize (role m) +:+ ": " +:+ content m) <$> msgs);
     final := s |}.
Proof.
  revert out. induction msgs as [|m rest IH]; intros out.
  - cbn. now rewrite app_nil_r.
  - rewrite fmap_cons. cbn [print_history].
    change (role_content m !! "role") with (Some (role m)).
    change (role_content m !! "content") with (Some (content m)).
    cbv beta iota. rewrite IH, fmap_cons, <- app_assoc. reflexivity.
Qed.

Lemma all_variables_present (env : gmap string string) :
  List.filter (missing env) required_vars = [] →
  ∃ (k b v d : string),
    env !! "AZURE_OPENAI_API_KEY" = Some k
    ∧ env !! "AZURE_OPENAI_API_BASE" = Some b
    ∧ env !! "AZURE_OPENAI_API_VERSION" = Some v
    ∧ env !! "AZURE_OPENAI_DEPLOYMENT_NAME" = Some d.
Proof.
  intros Hnone. split_environment env; try (now simpl in Hnone).
  do 4 eexists. repeat split; reflexivity.
Qed.

(** X13. With a variable missing, [main] ends with the error of
    [initialize] before anything is printed, asked for or sent: the
    agent is still the fresh one and the world is as it was. *)
Theorem main_stops_on_missing_configuration (system_prompt user_input : string)
    (w : World) :
  List.filter (missing (environ w)) required_vars ≠ [] →
  main system_prompt user_input w =
  {| raised := Some (Uncaught (ValueError (missing_message
                 (List.filter (missing (environ w)) required_vars))));
     printed := [];
     final := {| agent := fresh_agent; world := w |} |}.
Proof.
  intros Hmissing. unfold main.
  now rewrite (initialize_raises_missing {| agent := fresh_agent; world := w |}
                 eq_refl Hmissing).
Qed.

(** X14. With the four variables present, [main] runs to its end
    whatever the endpoint does. It makes one client, sends one request
    holding the system prompt and the user's line, and leaves a
    transcript of three messages; it prints the prompt for input, the
    user's line, the returned text, the history heading, and then the
    three messages with their role capitalised. *)
Theorem main_prints_the_conversation (system_prompt user_input : string) (w : World) :
  List.filter (missing (environ w)) required_vars = [] →
  ∃ (answer last_role k b v d : string),
    environ w !! "AZURE_OPENAI_API_KEY" = Some k
    ∧ environ w !! "AZURE_OPENAI_API_BASE" = Some b
    ∧ environ w !! "AZURE_OPENAI_API_VERSION" = Some v
    ∧ environ w !! "AZURE_OPENAI_DEPLOYMENT_NAME" = Some d
    ∧ (last_role = "assistant" ∨ last_role = "system")
    ∧ raised (main system_prompt user_input w) = None
    ∧ printed (main system_prompt user_input w) =
        [ "Enter your message: ";
          "User: " +:+ user_input;
          "Agent: " +:+ answer;
          String newline "Chat History:";
          "System: " +:+ system_prompt;
          "User: " +:+ user_input;
          capitalize last_role +:+ ": " +:+ answer ]
    ∧ messages (agent (final (main system_prompt user_input w))) =
        [ {| role := "system"; content := system_prompt |};
          {| role := "user"; content := user_input |};
          {| role := last_role; content := answer |} ]
    ∧ constructed (world (final (main system_prompt user_input w))) =
        constructed w
        ++ [ {| client_api_key := k; client_api_version := v;
                client_azure_endpoint := b |} ]
    ∧ calls (world (final (main system_prompt user_input w))) =
        calls w
        ++ [ {| req_client := {| client_api_key := k; client_api_version := v;
                                 client_azure_endpoint := b |};
                req_model := d;
                req_messages :=
                  MessageObjects
                    [ {| role := "system"; content := system_prompt |};
                      {| role := "user"; content := user_input |} ] |} ].
Proof.
  intros Hnone.
  destruct (all_variables_present _ Hnone) as (k & b & v & d & Hk & Hb & Hv & Hd).
  pose proof (initialize_from_environment_exact
                {| agent := fresh_agent; world := w |} k b v d
                eq_refl Hk Hb Hv Hd Hnone) as Hinit.
  cbv zeta in Hinit. unfold main. rewrite Hinit, add_message_str.
  cbn [snd messages_append agent world messages config client
       environ constructed calls fresh_agent app].
  match goal with
  | |- context [echo_message user_input ?s2] =>
      destruct (echo_message_shape user_input s2)
        as ((r & last_role & Hret & Hmsgs & Hrole) & _ & _ & _ & Hmade & _);
      destruct (cycle_ready user_input s2 _ _ eq_refl eq_refl) as [(_ & _ & Hcalls) _];
      destruct (echo_message user_input s2) as [o s3]
  end.
  cbn [fst snd] in Hret, Hmsgs, Hmade, Hcalls. subst o.
  exists r, last_role, k, b, v, d.
  unfold get_chat_history, bind, self_messages, ret.
  rewrite print_history_of_transcript. cbn [raised printed final].
  rewrite Hmsgs, Hmade, Hcalls.
  repeat (split; [first [assumption|reflexivity]|]). reflexivity.
Qed.

End EchoAgent.

(** ** The theorems at concrete sessions *)

(** C1 (as stated) fails: a call with the role "moderator", which is not
    one of the three documented roles, does not raise, and the transcript
    of the fresh session goes from length 0 to length 1. *)
Lemma add_message_does_not_reject_moderator :
  documented_role "moderator" = false
  ∧ ¬ (∃ e : exn,
         fst (add_message sample_validation_text "moderator" (PStr "hi") fresh_state)
         = Raises e)
  ∧ length (messages (agent
      (snd (add_message sample_validation_text "moderator" (PStr "hi") fresh_state))))
    ≠ length (messages (agent fresh_state)).
Proof.
  split; [reflexivity|]. split.
  - intros [e He]. vm_compute in He. discriminate He.
  - vm_compute. discriminate.
Qed.

Lemma add_message_accepts_any_role_witness :
  documented_role "moderator" = false
  ∧ fst (add_message sample_validation_text "moderator" (PStr "hi") ready_state)
    = Returns tt
  ∧ messages (agent
      (snd (add_message sample_validation_text "moderator" (PStr "hi") ready_state)))
    = [ {| role := "system"; content := "You are an Authorization Agent" |};
        {| role := "moderator"; content := "hi" |} ]
  ∧ length (messages (agent
      (snd (add_message sample_validation_text "moderator" (PStr "hi") ready_state))))
    = 2.
Proof.
  split; [reflexivity|].
  exact (add_message_accepts_any_role sample_validation_text
           "moderator" "hi" ready_state eq_refl).
Defined.

Lemma initialize_names_every_missing_variable_witness :
  config (agent partial_state) = None
  ∧ List.filter (missing (environ (world partial_state))) required_vars ≠ []
  ∧ initialize sample_validation_text sample_credentials_text partial_state =
      (Raises (ValueError
         "Missing required environment variables: AZURE_OPENAI_API_KEY, AZURE_OPENAI_API_BASE. Please check your .env file."),
       partial_state).
Proof.
  assert (List.filter (missing (environ (world partial_state))) required_vars ≠ [])
    as Hmissing by (vm_compute; discriminate).
  split; [reflexivity|]. split; [exact Hmissing|].
  exact (proj1 (initialize_names_every_missing_variable sample_validation_text sample_credentials_text
                  partial_state eq_refl Hmissing)).
Defined.

Lemma remote_failure_is_reported_witness :
  client (agent ready_state) = Some sample_client
  ∧ config (agent ready_state) = Some sample_config
  ∧ (fst (echo_message (always_fails "quota exceeded") sample_validation_text
            "hello" ready_state)
     = Returns (PStr "Error communicating with Azure OpenAI API: quota exceeded")
     ∧ messages (agent (snd (echo_message (always_fails "quota exceeded")
                               sample_validation_text "hello" ready_state)))
       = [ {| role := "system"; content := "You are an Authorization Agent" |};
           {| role := "user"; content := "hello" |};
           {| role := "system";
              content := "Error communicating with Azure OpenAI API: quota exceeded" |} ])
  ∧ (fst (process_with_ai (always_fails "quota exceeded") sample_validation_text sample_credentials_text
            "hello" ready_state)
     = Returns (PStr "Error communicating with Azure OpenAI API: quota exceeded")
     ∧ messages (agent (snd (process_with_ai (always_fails "quota exceeded")
                               sample_validation_text sample_credentials_text "hello" ready_state)))
       = [ {| role := "system"; content := "You are an Authorization Agent" |};
           {| role := "user"; content := "hello" |};
           {| role := "system";
              content := "Error communicating with Azure OpenAI API: quota exceeded" |} ]).
Proof.
  destruct (remote_failure_is_reported (always_fails "quota exceeded")
              sample_validation_text sample_credentials_text "hello" ready_state sample_client
              sample_config (APIError "quota exceeded") eq_refl eq_refl)
    as [Hecho Hprocess].
  split; [reflexivity|]. split; [reflexivity|].
  split; [exact (Hecho eq_refl)|exact (Hprocess eq_refl)].
Defined.

Lemma successful_reply_is_recorded_witness :
  client (agent ready_state) = Some sample_client
  ∧ config (agent ready_state) = Some sample_config
  ∧ (fst (echo_message (always_replies "Access granted") sample_validation_text
            "hello" ready_state)
     = Returns (PStr "Access granted")
     ∧ messages (agent (snd (echo_message (always_replies "Access granted")
                               sample_validation_text "hello" ready_state)))
       = [ {| role := "system"; content := "You are an Authorization Agent" |};
           {| role := "user"; content := "hello" |};
           {| role := "assistant"; content := "Access granted" |} ])
  ∧ (fst (process_with_ai (always_replies "Access granted") sample_validation_text sample_credentials_text
            "hello" ready_state)
     = Returns (PStr "Access granted")
     ∧ messages (agent (snd (process_with_ai (always_replies "Access granted")
                               sample_validation_text sample_credentials_text "hello" ready_state)))
       = [ {| role := "system"; content := "You are an Authorization Agent" |};
           {| role := "user"; content := "hello" |};
           {| role := "assistant"; content := "Access granted" |} ]).
Proof.
  destruct (successful_reply_is_recorded (always_replies "Access granted")
              sample_validation_text sample_credentials_text "hello" ready_state sample_client
              sample_config "Access granted" [] eq_refl eq_refl)
    as [Hecho Hprocess].
  split; [reflexivity|]. split; [reflexivity|].
  split; [exact (Hecho eq_refl)|exact (Hprocess eq_refl)].
Defined.


(** C7 (as stated) fails: in an environment where a variable is missing
    the session never becomes ready. Each of three calls in a row has to
    try to initialise again, the client is still [None] afterwards, and no
    handle was made. *)
Lemma process_with_ai_never_ready_without_configuration :
  client (agent partial_state) = None
  ∧ client (agent (snd (process_with_ai (always_replies "ok") sample_validation_text
                          sample_credentials_text "one" partial_state))) = None
  ∧ client (agent (process_all (always_replies "ok") sample_validation_text
                     sample_credentials_text ["one"; "two"; "three"] partial_state))
    = None
  ∧ constructed (world (process_all (always_replies "ok") sample_validation_text
                          sample_credentials_text ["one"; "two"; "three"]
                          partial_state)) = []
  ∧ ¬ (∃ c : AsyncAzureOpenAI,
         client (agent (process_all (always_replies "ok") sample_validation_text
                          sample_credentials_text ["one"; "two"; "three"]
                          partial_state)) = Some c).
Proof.
  repeat (split; [vm_compute; reflexivity|]).
  intros [c Hc]. vm_compute in Hc. discriminate Hc.
Qed.

Lemma process_with_ai_initializes_once_witness :
  client (agent configured_state) = None
  ∧ ((∃ cfg : AzureAIConfig,
        config (agent configured_state) = Some cfg ∧ api_key cfg ≠ "")
     ∨ (config (agent configured_state) = None
        ∧ List.filter (missing (environ (world configured_state))) required_vars = []))
  ∧ ∃ c : AsyncAzureOpenAI,
      client (agent (snd (process_with_ai (always_replies "ok")
                            sample_validation_text sample_credentials_text
                            "one" configured_state))) = Some c
      ∧ constructed (world (snd (process_with_ai (always_replies "ok")
                                   sample_validation_text sample_credentials_text
                                   "one" configured_state)))
        = constructed (world configured_state) ++ [c]
      ∧ client (agent (process_all (always_replies "ok") sample_validation_text
                         sample_credentials_text
                         ["one"; "two"; "three"] configured_state)) = Some c
      ∧ constructed (world (process_all (always_replies "ok") sample_validation_text
                              sample_credentials_text
                              ["one"; "two"; "three"] configured_state))
        = constructed (world configured_state) ++ [c].
Proof.
  split; [reflexivity|]. split; [right; split; reflexivity|].
  exact (process_with_ai_initializes_once (always_replies "ok")
           sample_validation_text sample_credentials_text
           "one" ["two"; "three"] configured_state
           eq_refl (or_intror (conj eq_refl eq_refl))).
Defined.

Lemma process_with_ai_missing_configuration_witness :
  client (agent partial_state) = None
  ∧ config (agent partial_state) = None
  ∧ List.filter (missing (environ (world partial_state))) required_vars ≠ []
  ∧ process_with_ai (always_replies "ok") sample_validation_text sample_credentials_text "hello" partial_state =
      (Raises (ValueError
         "Missing required environment variables: AZURE_OPENAI_API_KEY, AZURE_OPENAI_API_BASE. Please check your .env file."),
       partial_state)
  ∧ messages (agent (snd (process_with_ai (always_replies "ok")
                            sample_validation_text sample_credentials_text "hello" partial_state))) = []
  ∧ calls (world (snd (process_with_ai (always_replies "ok")
                         sample_validation_text sample_credentials_text "hello" partial_state))) = [].
Proof.
  assert (List.filter (missing (environ (world partial_state))) required_vars ≠ [])
    as Hmissing by (vm_compute; discriminate).
  split; [reflexivity|]. split; [reflexivity|]. split; [exact Hmissing|].
  exact (process_with_ai_missing_configuration (always_replies "ok")
           sample_validation_text sample_credentials_text "hello" partial_state eq_refl eq_refl Hmissing).
Defined.

Lemma echo_message_without_client_witness :
  client (agent fresh_state) = None
  ∧ fst (echo_message (always_replies "ok") sample_validation_text "hello" fresh_state)
    = Returns (PStr "Error communicating with Azure OpenAI API: 'NoneType' object has no attribute 'chat'")
  ∧ messages (agent (snd (echo_message (always_replies "ok") sample_validation_text
                            "hello" fresh_state)))
    = [ {| role := "user"; content := "hello" |};
        {| role := "system";
           content := "Error communicating with Azure OpenAI API: 'NoneType' object has no attribute 'chat'" |} ]
  ∧ client (agent (snd (echo_message (always_replies "ok") sample_validation_text
                          "hello" fresh_state))) = None
  ∧ world (snd (echo_message (always_replies "ok") sample_validation_text
                  "hello" fresh_state)) = world fresh_state.
Proof.
  split; [reflexivity|].
  exact (echo_message_without_client (always_replies "ok") sample_validation_text
           "hello" fresh_state eq_refl).
Defined.

(** ** The further properties at concrete sessions *)

Lemma initialize_trusts_explicit_config_witness :
  config (agent unchecked_state) = Some unchecked_config
  ∧ config (agent ready_state) = Some sample_config
  ∧ initialize sample_validation_text sample_credentials_text
      (with_environ partial_environ unchecked_state) =
    (Raises (OpenAIError "Missing credentials"),
     with_environ partial_environ unchecked_state)
  ∧ initialize sample_validation_text sample_credentials_text
      (with_environ ∅ ready_state) =
    (Returns tt,
     {| agent := agent ready_state;
        world := {| environ := ∅;
                    constructed := [sample_client; sample_client];
                    calls := [] |} |}).
Proof.
  split; [reflexivity|]. split; [reflexivity|]. split.
  - exact (initialize_trusts_explicit_config sample_validation_text
             sample_credentials_text unchecked_state unchecked_config
             partial_environ eq_refl).
  - exact (initialize_trusts_explicit_config sample_validation_text
             sample_credentials_text ready_state sample_config ∅ eq_refl).
Defined.

Lemma initialize_reads_the_environment_witness :
  config (agent configured_state) = None
  ∧ environ (world configured_state) !! "AZURE_OPENAI_API_KEY" = Some "k"
  ∧ environ (world configured_state) !! "AZURE_OPENAI_API_BASE" = Some "https://e"
  ∧ environ (world configured_state) !! "AZURE_OPENAI_API_VERSION" = Some "v1"
  ∧ environ (world configured_state) !! "AZURE_OPENAI_DEPLOYMENT_NAME" = Some "gpt"
  ∧ "k" ≠ "" ∧ "https://e" ≠ "" ∧ "v1" ≠ "" ∧ "gpt" ≠ ""
  ∧ initialize sample_validation_text sample_credentials_text configured_state =
    (Returns tt,
     {| agent := {| messages := []; config := Some sample_config;
                    client := Some sample_client |};
        world := {| environ := full_environ; constructed := [sample_client];
                    calls := [] |} |}).
Proof.
  assert ("k" ≠ "") as Hk by discriminate.
  assert ("https://e" ≠ "") as Hb by discriminate.
  assert ("v1" ≠ "") as Hv by discriminate.
  assert ("gpt" ≠ "") as Hd by discriminate.
  repeat (split; [first [reflexivity|assumption]|]).
  exact (initialize_reads_the_environment sample_validation_text sample_credentials_text configured_state
           "k" "https://e" "v1" "gpt" eq_refl eq_refl eq_refl eq_refl eq_refl
           Hk Hb Hv Hd).
Defined.

Lemma initialize_stores_all_or_nothing_witness :
  config (agent partial_state) = None
  ∧ (agent (snd (initialize sample_validation_text sample_credentials_text partial_state)) = agent partial_state
     ∨ ∃ cfg : AzureAIConfig,
         config (agent (snd (initialize sample_validation_text sample_credentials_text partial_state))) = Some cfg
         ∧ environ (world partial_state) !! "AZURE_OPENAI_API_KEY" = Some (api_key cfg)
         ∧ environ (world partial_state) !! "AZURE_OPENAI_API_BASE" = Some (api_base cfg)
         ∧ environ (world partial_state) !! "AZURE_OPENAI_API_VERSION"
           = Some (api_version cfg)
         ∧ environ (world partial_state) !! "AZURE_OPENAI_DEPLOYMENT_NAME"
           = Some (deployment_name cfg)
         ∧ api_key cfg ≠ "" ∧ api_base cfg ≠ ""
         ∧ api_version cfg ≠ "" ∧ deployment_name cfg ≠ "").
Proof.
  split; [reflexivity|].
  exact (initialize_stores_all_or_nothing sample_validation_text sample_credentials_text partial_state eq_refl).
Defined.

Lemma initialize_again_makes_another_client_witness :
  initialize sample_validation_text sample_credentials_text configured_state =
    (Returns tt, snd (initialize sample_validation_text sample_credentials_text configured_state))
  ∧ ∃ c : AsyncAzureOpenAI,
      client (agent (snd (initialize sample_validation_text sample_credentials_text configured_state))) = Some c
      ∧ initialize sample_validation_text sample_credentials_text
          (with_environ ∅ (snd (initialize sample_validation_text sample_credentials_text configured_state))) =
        (Returns tt,
         {| agent := agent (snd (initialize sample_validation_text sample_credentials_text configured_state));
            world := {| environ := ∅;
                        constructed := [sample_client] ++ [c];
                        calls := [] |} |}).
Proof.
  split; [reflexivity|].
  exact (initialize_again_makes_another_client sample_validation_text sample_credentials_text
           configured_state _ ∅ eq_refl).
Defined.

Lemma client_without_config_is_reported_witness :
  client (agent client_only_state) = Some sample_client
  ∧ config (agent client_only_state) = None
  ∧ echo_message (always_replies "ok") sample_validation_text "hello" client_only_state =
    (Returns (PStr "Error communicating with Azure OpenAI API: 'NoneType' object has no attribute 'deployment_name'"),
     {| agent := {| messages :=
                      [ {| role := "user"; content := "hello" |};
                        {| role := "system";
                           content := "Error communicating with Azure OpenAI API: 'NoneType' object has no attribute 'deployment_name'" |} ];
                    config := None; client := Some sample_client |};
        world := world client_only_state |})
  ∧ process_with_ai (always_replies "ok") sample_validation_text sample_credentials_text "hello" client_only_state =
    (Returns (PStr "Error communicating with Azure OpenAI API: 'NoneType' object has no attribute 'deployment_name'"),
     {| agent := {| messages :=
                      [ {| role := "user"; content := "hello" |};
                        {| role := "system";
                           content := "Error communicating with Azure OpenAI API: 'NoneType' object has no attribute 'deployment_name'" |} ];
                    config := None; client := Some sample_client |};
        world := world client_only_state |}).
Proof.
  split; [reflexivity|]. split; [reflexivity|].
  exact (client_without_config_is_reported (always_replies "ok") sample_validation_text sample_credentials_text
           "hello" client_only_state sample_client eq_refl eq_refl).
Defined.

Lemma unusable_response_is_reported_witness :
  client (agent ready_state) = Some sample_client
  ∧ config (agent ready_state) = Some sample_config
  ∧ (fst (echo_message replies_without_choice sample_validation_text "hello" ready_state)
     = Returns (PStr "Error communicating with Azure OpenAI API: list index out of range")
     ∧ messages (agent (snd (echo_message replies_without_choice sample_validation_text
                               "hello" ready_state)))
       = [ {| role := "system"; content := "You are an Authorization Agent" |};
           {| role := "user"; content := "hello" |};
           {| role := "system";
              content := "Error communicating with Azure OpenAI API: list index out of range" |} ])
  ∧ (fst (echo_message replies_without_content sample_validation_text "hello" ready_state)
     = Returns (PStr "Error communicating with Azure OpenAI API: 1 validation error for Message: content")
     ∧ messages (agent (snd (echo_message replies_without_content sample_validation_text
                               "hello" ready_state)))
       = [ {| role := "system"; content := "You are an Authorization Agent" |};
           {| role := "user"; content := "hello" |};
           {| role := "system";
              content := "Error communicating with Azure OpenAI API: 1 validation error for Message: content" |} ]).
Proof.
  destruct (unusable_response_is_reported replies_without_choice sample_validation_text
              "hello" ready_state sample_client sample_config [] eq_refl eq_refl)
    as [Hchoice _].
  destruct (unusable_response_is_reported replies_without_content sample_validation_text
              "hello" ready_state sample_client sample_config [] eq_refl eq_refl)
    as [_ Hcontent].
  split; [reflexivity|]. split; [reflexivity|]. split.
  - destruct (Hchoice eq_refl) as (Hret & Hmsgs & _). split; [exact Hret|exact Hmsgs].
  - destruct (Hcontent eq_refl) as (Hret & Hmsgs & _). split; [exact Hret|exact Hmsgs].
Defined.

Lemma error_notice_is_sent_with_the_next_request_witness :
  client (agent ready_state) = Some sample_client
  ∧ config (agent ready_state) = Some sample_config
  ∧ fails_once "timeout" "ok" (calls (world ready_state))
      {| req_client := sample_client; req_model := "gpt";
         req_messages :=
           MessageObjects
             [ {| role := "system"; content := "You are an Authorization Agent" |};
               {| role := "user"; content := "one" |} ] |}
    = Fails (APIError "timeout")
  ∧ calls (world (echo_all (fails_once "timeout" "ok") sample_validation_text
                    ["one"; "two"] ready_state)) =
    [ {| req_client := sample_client; req_model := "gpt";
         req_messages :=
           MessageObjects
             [ {| role := "system"; content := "You are an Authorization Agent" |};
               {| role := "user"; content := "one" |} ] |};
      {| req_client := sample_client; req_model := "gpt";
         req_messages :=
           MessageObjects
             [ {| role := "system"; content := "You are an Authorization Agent" |};
               {| role := "user"; content := "one" |};
               {| role := "system";
                  content := "Error communicating with Azure OpenAI API: timeout" |};
               {| role := "user"; content := "two" |} ] |} ].
Proof.
  split; [reflexivity|]. split; [reflexivity|]. split; [reflexivity|].
  exact (error_notice_is_sent_with_the_next_request (fails_once "timeout" "ok")
           sample_validation_text "one" "two" ready_state sample_client sample_config
           (APIError "timeout") eq_refl eq_refl eq_refl).
Defined.

Lemma every_call_adds_two_messages_and_one_request_witness :
  client (agent ready_state) = Some sample_client
  ∧ config (agent ready_state) = Some sample_config
  ∧ (length (messages (agent (echo_all (fails_once "timeout" "ok")
                                sample_validation_text ["one"; "two"; "three"]
                                ready_state))) = 7
     ∧ length (calls (world (echo_all (fails_once "timeout" "ok")
                               sample_validation_text ["one"; "two"; "three"]
                               ready_state))) = 3
     ∧ constructed (world (echo_all (fails_once "timeout" "ok")
                             sample_validation_text ["one"; "two"; "three"]
                             ready_state)) = [sample_client])
  ∧ (length (messages (agent (process_all (fails_once "timeout" "ok")
                                sample_validation_text sample_credentials_text ["one"; "two"; "three"]
                                ready_state))) = 7
     ∧ length (calls (world (process_all (fails_once "timeout" "ok")
                               sample_validation_text sample_credentials_text ["one"; "two"; "three"]
                               ready_state))) = 3
     ∧ constructed (world (process_all (fails_once "timeout" "ok")
                             sample_validation_text sample_credentials_text ["one"; "two"; "three"]
                             ready_state)) = [sample_client]).
Proof.
  split; [reflexivity|]. split; [reflexivity|].
  exact (every_call_adds_two_messages_and_one_request (fails_once "timeout" "ok")
           sample_validation_text sample_credentials_text ["one"; "two"; "three"] ready_state
           sample_client sample_config eq_refl eq_refl).
Defined.

Lemma first_call_initializes_then_asks_witness :
  client (agent configured_state) = None
  ∧ config (agent configured_state) = None
  ∧ environ (world configured_state) !! "AZURE_OPENAI_API_KEY" = Some "k"
  ∧ environ (world configured_state) !! "AZURE_OPENAI_API_BASE" = Some "https://e"
  ∧ environ (world configured_state) !! "AZURE_OPENAI_API_VERSION" = Some "v1"
  ∧ environ (world configured_state) !! "AZURE_OPENAI_DEPLOYMENT_NAME" = Some "gpt"
  ∧ List.filter (missing (environ (world configured_state))) required_vars = []
  ∧ process_with_ai (always_replies "Access granted") sample_validation_text sample_credentials_text
      "hello" configured_state =
    (Returns (PStr "Access granted"),
     {| agent := {| messages := [ {| role := "user"; content := "hello" |};
                                  {| role := "assistant"; content := "Access granted" |} ];
                    config := Some sample_config;
                    client := Some sample_client |};
        world := {| environ := full_environ;
                    constructed := [sample_client];
                    calls := [ {| req_client := sample_client; req_model := "gpt";
                                  req_messages :=
                                    RoleContentDicts
                                      [ {[ "role" := "user"; "content" := "hello" ]} ] |} ]
                 |} |}).
Proof.
  repeat (split; [reflexivity|]).
  exact (first_call_initializes_then_asks (always_replies "Access granted")
           sample_validation_text sample_credentials_text "hello" configured_state "k" "https://e" "v1" "gpt"
           "Access granted" [] eq_refl eq_refl eq_refl eq_refl eq_refl eq_refl eq_refl
           eq_refl).
Defined.

Lemma main_stops_on_missing_configuration_witness :
  List.filter (missing (environ (world_of partial_environ))) required_vars ≠ []
  ∧ main (always_replies "ok") sample_validation_text sample_credentials_text "You are an Authorization Agent"
      "hello" (world_of partial_environ) =
    {| raised := Some (Uncaught (ValueError
         "Missing required environment variables: AZURE_OPENAI_API_KEY, AZURE_OPENAI_API_BASE. Please check your .env file."));
       printed := [];
       final := partial_state |}.
Proof.
  assert (List.filter (missing (environ (world_of partial_environ))) required_vars ≠ [])
    as Hmissing by (vm_compute; discriminate).
  split; [exact Hmissing|].
  exact (main_stops_on_missing_configuration (always_replies "ok")
           sample_validation_text sample_credentials_text "You are an Authorization Agent" "hello"
           (world_of partial_environ) Hmissing).
Defined.

Lemma main_prints_the_conversation_witness :
  List.filter (missing (environ (world_of full_environ))) required_vars = []
  ∧ ∃ (answer last_role k b v d : string),
      environ (world_of full_environ) !! "AZURE_OPENAI_API_KEY" = Some k
      ∧ environ (world_of full_environ) !! "AZURE_OPENAI_API_BASE" = Some b
      ∧ environ (world_of full_environ) !! "AZURE_OPENAI_API_VERSION" = Some v
      ∧ environ (world_of full_environ) !! "AZURE_OPENAI_DEPLOYMENT_NAME" = Some d
      ∧ (last_role = "assistant" ∨ last_role = "system")
      ∧ raised (main (always_fails "quota exceeded") sample_validation_text sample_credentials_text
                  "Be brief" "hello" (world_of full_environ)) = None
      ∧ printed (main (always_fails "quota exceeded") sample_validation_text sample_credentials_text
                   "Be brief" "hello" (world_of full_environ)) =
          [ "Enter your message: ";
            "User: hello";
            "Agent: " +:+ answer;
            String newline "Chat History:";
            "System: Be brief";
            "User: hello";
            capitalize last_role +:+ ": " +:+ answer ]
      ∧ messages (agent (final (main (always_fails "quota exceeded")
                                  sample_validation_text sample_credentials_text "Be brief" "hello"
                                  (world_of full_environ)))) =
          [ {| role := "system"; content := "Be brief" |};
            {| role := "user"; content := "hello" |};
            {| role := last_role; content := answer |} ]
      ∧ constructed (world (final (main (always_fails "quota exceeded")
                                     sample_validation_text sample_credentials_text "Be brief" "hello"
                                     (world_of full_environ)))) =
          [ {| client_api_key := k; client_api_version := v;
               client_azure_endpoint := b |} ]
      ∧ calls (world (final (main (always_fails "quota exceeded")
                               sample_validation_text sample_credentials_text "Be brief" "hello"
                               (world_of full_environ)))) =
          [ {| req_client := {| client_api_key := k; client_api_version := v;
                                client_azure_endpoint := b |};
               req_model := d;
               req_messages :=
                 MessageObjects
                   [ {| role := "system"; content := "Be brief" |};
                     {| role := "user"; content := "hello" |} ] |} ].
Proof.
  split; [reflexivity|].
  exact (main_prints_the_conversation (always_fails "quota exceeded")
           sample_validation_text sample_credentials_text "Be brief" "hello" (world_of full_environ) eq_refl).
Defined.
